(** * The worker's email utility (packages/worker/src/utilities/email.js)

    A shallow embedding of the email composition and dispatch functions:
    JavaScript values, the external collaborators as calls answered by a
    world, asynchronous code as a small program monad whose runs yield a
    trace of calls and a result. *)

From stdpp Require Import base option list strings gmap pretty.
From Stdlib Require Import ZArith Lia.

Open Scope string_scope.
Open Scope Z_scope.
Open Scope list_scope.

(** ** JavaScript values *)

(** The values the file handles: primitives and plain objects. An object is a
    finite map from property names to values; the file never enumerates an
    object in an order-sensitive way. [VNum n] is the Number nearest to the
    integer [n]; other numbers do not occur. No value is callable. *)
#[warnings="-register-all"]
Inductive value : Type :=
| VUndefined
| VNull
| VBool (b : bool)
| VNum (n : Z)
| VStr (s : string)
| VObj (props : gmap string value).

(** ToBoolean. *)
Definition truthy (v : value) : bool :=
  match v with
  | VUndefined | VNull => false
  | VBool b => b
  | VNum n => negb (Z.eqb n 0)
  | VStr s => negb (String.eqb s "")
  | VObj _ => true
  end.

(** [v == null]: true of [null] and [undefined] only. *)
Definition nullish (v : value) : bool :=
  match v with
  | VUndefined | VNull => true
  | _ => false
  end.

(** [a || b] *)
Definition js_or (a b : value) : value := if truthy a then a else b.

(** [v === s] for a string constant [s]. *)
Definition strict_eq_str (v : value) (s : string) : bool :=
  match v with
  | VStr s' => String.eqb s' s
  | _ => false
  end.

(** ** Errors, property access and object literals *)

(** What a failing computation carries: a value thrown by a [throw] statement
    or rejected by a collaborator, or a TypeError of the engine about
    property [prop] of [base]: for reading it when [base] is [null] or
    [undefined], or for needing it as a method when it is not callable. *)
Inductive error : Type :=
| Thrown (v : value)
| TypeError (base : value) (prop : string).

Inductive result (A : Type) : Type :=
| Returned (a : A)
| Threw (e : error).
Arguments Returned {A} a.
Arguments Threw {A} e.

(** [base.prop]. The property names read in this file ([port], [host],
    [secure], [auth], [selfSigned], [from], [subject], [contents], [_id],
    [groupId], [user]) are inherited from no built-in prototype, so a
    primitive or an object without the property gives [undefined]. *)
Definition get_prop (base : value) (prop : string) : result value :=
  match base with
  | VUndefined | VNull => Threw (TypeError base prop)
  | VObj props => Returned (default VUndefined (props !! prop))
  | _ => Returned VUndefined
  end.

(** [base.prop] where the access cannot fail. *)
Definition field (base : value) (prop : string) : value :=
  match get_prop base prop with
  | Returned v => v
  | Threw _ => VUndefined
  end.

(** *** Numbers and values as strings *)

(** The Number nearest to a positive integer: the integer itself below
    2^53, else the integer rounded to 53 significant bits, a tie going to
    the even significand; [None] is Infinity. *)
Definition nearest_number (n : Z) : option Z :=
  if n <? 2 ^ 53 then Some n
  else
    let e := Z.log2 n - 52 in
    let q := n / 2 ^ e in
    let r := n mod 2 ^ e in
    let half := 2 ^ (e - 1) in
    let m := if (half <? r) || ((r =? half) && Z.odd q) then q + 1 else q in
    if m * 2 ^ e <? 2 ^ 1024 then Some (m * 2 ^ e) else None.

(** The decimal [v] denotes the Number [x]. *)
Definition reads_as (x v : Z) : bool :=
  (0 <? v) && match nearest_number v with Some y => y =? x | None => false end.

(** Number::toString chooses the decimal with the fewest significant digits
    that denotes the Number [x]: here the multiples of 10^p next to [x], from
    the largest [p] down; of two that denote [x], the closer one, and the
    even one on a tie. *)
Fixpoint shortest_decimal (fuel : nat) (p x : Z) : Z :=
  match fuel with
  | O => x
  | S fuel' =>
      let u := 10 ^ p in
      let lo := x / u * u in
      let hi := lo + u in
      match reads_as x lo, reads_as x hi with
      | true, true =>
          if x - lo <? hi - x then lo
          else if hi - x <? x - lo then hi
          else if Z.even (x / u) then lo else hi
      | true, false => lo
      | false, true => hi
      | false, false => shortest_decimal fuel' (p - 1) x
      end
  end.

(** A digit string without its trailing zeros. *)
Fixpoint strip_zeros (s : string) : string :=
  match s with
  | EmptyString => EmptyString
  | String c s' =>
      match strip_zeros s' with
      | EmptyString =>
          if String.eqb (String c EmptyString) "0" then EmptyString
          else String c EmptyString
      | t => String c t
      end
  end.

(** Number::toString on a positive integer: the digits with their zeros up
    to 21 digits, the exponent form beyond. *)
Definition positive_to_string (n : Z) : string :=
  match nearest_number n with
  | None => "Infinity"
  | Some x =>
      let digits := String.length (pretty x) in
      let v := shortest_decimal (S digits) (Z.of_nat digits) x in
      let ds := pretty v in
      let n := Z.of_nat (String.length ds) in
      if n <=? 21 then ds
      else
        match strip_zeros ds with
        | EmptyString => ds
        | String d EmptyString => String d ("e+" +:+ pretty (n - 1))
        | String d rest => String d ("." +:+ rest +:+ "e+" +:+ pretty (n - 1))
        end
  end.

Definition number_to_string (n : Z) : string :=
  if n =? 0 then "0"
  else if n <? 0 then "-" +:+ positive_to_string (- n)
  else positive_to_string n.

(** ToString, as a template literal applies it. A plain object is converted
    by the [toString] it inherits; an own [toString] entry hides that one,
    and as no value is callable the conversion then ends in a TypeError. *)
Definition to_string (v : value) : result string :=
  match v with
  | VUndefined => Returned "undefined"
  | VNull => Returned "null"
  | VBool true => Returned "true"
  | VBool false => Returned "false"
  | VNum n => Returned (number_to_string n)
  | VStr s => Returned s
  | VObj props =>
      match props !! "toString" with
      | Some _ => Threw (TypeError v "toString")
      | None => Returned "[object Object]"
      end
  end.

(** The characters of a string as the own properties "0", "1", ... that a
    spread of the string copies. *)
Fixpoint string_props (i : nat) (s : string) : gmap string value :=
  match s with
  | EmptyString => ∅
  | String c s' => <[pretty i := VStr (String c EmptyString)]> (string_props (S i) s')
  end.

(** The own enumerable properties [{...v}] copies. *)
Definition own_props (v : value) : gmap string value :=
  match v with
  | VObj props => props
  | VStr s => string_props 0%nat s
  | _ => ∅
  end.

(** ** External collaborators *)

(** Every function this file imports and calls, with its arguments. *)
Inductive call : Type :=
| NewCouchDB (name : value)
| DetermineScopedConfig (db params : value)
| CreateTransport (options : value)
| SendMail (transport message : value)
| Verify (transport : value)
| GetTemplateByPurpose (type purpose : value)
| GetResetPasswordCode (userId : value)
| GetInviteCode (email : value)
| GetSettingsTemplateContext (purpose code : value)
| ProcessString (template context : value).

(** How a call ends: with a value, or with a thrown or rejected value. *)
Inductive outcome : Type :=
| Resolved (v : value)
| Rejected (v : value).

(** The collaborators' behaviour. *)
Definition world : Type := call -> outcome.

(** What a run does to the outside, in order: a synchronous call with its
    outcome, the start of an asynchronous operation, and its settlement as
    the awaiting code observes it. *)
Inductive event : Type :=
| Invoke (c : call) (o : outcome)
| Issue (c : call)
| Settle (c : call) (o : outcome).

(** ** Programs *)

(** [Call] is a synchronous call; [Await] starts an asynchronous operation
    and suspends until it settles; [AwaitAll] is [await Promise.all([...])]
    over operations started one after the other before the suspension. The
    file has no [try], so every failure ends the program. *)
Inductive prog (A : Type) : Type :=
| Ret (a : A)
| Throw (e : error)
| Call (c : call) (k : value -> prog A)
| Await (c : call) (k : value -> prog A)
| AwaitAll (cs : list call) (k : list value -> prog A).
Arguments Ret {A} a.
Arguments Throw {A} e.
Arguments Call {A} c k.
Arguments Await {A} c k.
Arguments AwaitAll {A} cs k.

Fixpoint prog_bind {A B : Type} (f : A -> prog B) (m : prog A) : prog B :=
  match m with
  | Ret a => f a
  | Throw e => Throw e
  | Call c k => Call c (fun v => prog_bind f (k v))
  | Await c k => Await c (fun v => prog_bind f (k v))
  | AwaitAll cs k => AwaitAll cs (fun vs => prog_bind f (k vs))
  end.

#[export] Instance prog_mret : MRet prog := fun A a => Ret a.
#[export] Instance prog_mbind : MBind prog := fun A B f m => prog_bind f m.

(** A property read inside a program. *)
Definition read (base : value) (prop : string) : prog value :=
  match get_prop base prop with
  | Returned v => Ret v
  | Threw e => Throw e
  end.

(** The values of a batch of outcomes, or its first rejection. *)
Fixpoint all_resolved (os : list outcome) : result (list value) :=
  match os with
  | [] => Returned []
  | Resolved v :: os' =>
      match all_resolved os' with
      | Returned vs => Returned (v :: vs)
      | Threw e => Threw e
      end
  | Rejected e :: _ => Threw (Thrown e)
  end.

(** A trace put in front of the rest of a run. *)
Definition after {A : Type} (tr : list event) (p : list event * result A)
  : list event * result A :=
  (tr ++ fst p, snd p).

(** The run of a program in a world: the trace and the result. The
    settlements of a batch are listed in the order of the batch. *)
Fixpoint run {A : Type} (w : world) (m : prog A) : list event * result A :=
  match m with
  | Ret a => ([], Returned a)
  | Throw e => ([], Threw e)
  | Call c k =>
      match w c with
      | Resolved v => after [Invoke c (Resolved v)] (run w (k v))
      | Rejected e => ([Invoke c (Rejected e)], Threw (Thrown e))
      end
  | Await c k =>
      match w c with
      | Resolved v => after [Issue c; Settle c (Resolved v)] (run w (k v))
      | Rejected e => ([Issue c; Settle c (Rejected e)], Threw (Thrown e))
      end
  | AwaitAll cs k =>
      let batch := map Issue cs ++ map (fun c => Settle c (w c)) cs in
      match all_resolved (map w cs) with
      | Returned vs => after batch (run w (k vs))
      | Threw e => (batch, Threw e)
      end
  end.

Definition trace_of {A : Type} (w : world) (m : prog A) : list event := fst (run w m).
Definition result_of {A : Type} (w : world) (m : prog A) : result A := snd (run w m).

(** [Array.prototype.indexOf] on an array of string constants: the first
    position whose element is strictly equal to [v], or -1. *)
Fixpoint indexOf_from (i : Z) (l : list string) (v : value) : Z :=
  match l with
  | [] => -1
  | s :: l' => if strict_eq_str v s then i else indexOf_from (i + 1) l' v
  end.

Definition indexOf (l : list string) (v : value) : Z := indexOf_from 0 l v.

(** A parameter default [p = d]: it applies to [undefined] only. *)
Definition default_param (v d : value) : value :=
  match v with
  | VUndefined => d
  | _ => v
  end.

(** ** The constants the file imports

    [../constants] and [@budibase/auth] are not part of the sources at hand:
    the constants are parameters. The purposes are strings, as the
    documentation of [buildEmail] says. *)
Record constants : Type := {
  GLOBAL_DB : value;          (* StaticDatabases.GLOBAL.name *)
  TYPE : value;               (* TemplateTypes.EMAIL *)
  SMTP : value;               (* Configs.SMTP *)
  BASE : string;              (* EmailTemplatePurpose.BASE *)
  STYLES : string;            (* EmailTemplatePurpose.STYLES *)
  INVITATION : string;        (* EmailTemplatePurpose.INVITATION *)
  PASSWORD_RECOVERY : string; (* EmailTemplatePurpose.PASSWORD_RECOVERY *)
  WELCOME : string;           (* EmailTemplatePurpose.WELCOME *)
}.

(** ** The functions of email.js *)

Section Email.
Context (K : constants).

Definition FULL_EMAIL_PURPOSES : list string :=
  [INVITATION K; PASSWORD_RECOVERY K; WELCOME K].

Definition createSMTPTransport (config : value) : prog value :=
  port ← read config "port";
  host ← read config "host";
  secure ← read config "secure";
  auth ← read config "auth";
  let options : gmap string value :=
    {[ "port" := port; "host" := host;
       "secure" := js_or secure (VBool false); "auth" := auth ]} in
  selfSigned ← read config "selfSigned";
  let options :=
    if truthy selfSigned
    then <["tls" := VObj {[ "rejectUnauthorized" := VBool false ]}]> options
    else options in
  Call (CreateTransport (VObj options)) Ret.

Definition getLinkCode (purpose email user : value) : prog value :=
  if strict_eq_str purpose (PASSWORD_RECOVERY K) then
    userId ← read user "_id";
    Await (GetResetPasswordCode userId) Ret
  else if strict_eq_str purpose (INVITATION K) then
    Await (GetInviteCode email) Ret
  else Ret VNull.

Definition buildEmail (purpose email user : value) : prog value :=
  if indexOf FULL_EMAIL_PURPOSES purpose =? -1 then
    match to_string purpose with
    | Returned type => Throw (Thrown (VStr ("Unable to build an email of type " +:+ type)))
    | Threw e => Throw e
    end
  else
    AwaitAll [GetTemplateByPurpose (TYPE K) (VStr (BASE K));
              GetTemplateByPurpose (TYPE K) (VStr (STYLES K));
              GetTemplateByPurpose (TYPE K) purpose]
      (fun fragments =>
         let base := nth 0 fragments VUndefined in
         let styles := nth 1 fragments VUndefined in
         let body := nth 2 fragments VUndefined in
         if negb (truthy base) || negb (truthy styles) || negb (truthy body) then
           Throw (Thrown (VStr "Unable to build email, missing base components"))
         else
           base ← read base "contents";
           styles ← read styles "contents";
           body ← read body "contents";
           code ← getLinkCode purpose email user;
           settings ← Await (GetSettingsTemplateContext purpose code) Ret;
           let context : gmap string value :=
             <["user" := js_or user (VObj ∅)]>
               (<["email" := email]> (own_props settings)) in
           body ← Await (ProcessString body (VObj context)) Ret;
           styles ← Await (ProcessString styles (VObj context)) Ret;
           Await (ProcessString base
                    (VObj (<["body" := body]> (<["styles" := styles]> context)))) Ret).

Definition getSmtpConfiguration (db groupId : value) : prog value :=
  let groupId := default_param groupId VNull in
  let params : gmap string value := {[ "type" := SMTP K ]} in
  let params := if truthy groupId then <["group" := groupId]> params else params in
  Await (DetermineScopedConfig db (VObj params)) Ret.

Definition isEmailConfigured (groupId : value) : prog value :=
  let groupId := default_param groupId VNull in
  db ← Call (NewCouchDB (GLOBAL_DB K)) Ret;
  config ← getSmtpConfiguration db groupId;
  Ret (VBool (negb (nullish config))).

Definition sendEmail (email purpose opts : value) : prog value :=
  let opts := default_param opts (VObj ∅) in
  groupId ← read opts "groupId";
  user ← read opts "user";
  db ← Call (NewCouchDB (GLOBAL_DB K)) Ret;
  config ← getSmtpConfiguration db groupId;
  if negb (truthy config) then
    Throw (Thrown (VStr "Unable to find SMTP configuration."))
  else
    transport ← createSMTPTransport config;
    from ← read config "from";
    subject ← read config "subject";
    html ← buildEmail purpose email user;
    let message : gmap string value :=
      {[ "from" := from; "subject" := subject; "to" := email; "html" := html ]} in
    Await (SendMail transport (VObj message)) Ret.

Definition verifyConfig (config : value) : prog value :=
  transport ← createSMTPTransport config;
  _ ← Await (Verify transport) Ret;
  Ret VUndefined.

End Email.

(** ** Reading traces *)

(** The call an event is about. *)
Definition call_of (e : event) : call :=
  match e with
  | Invoke c _ | Issue c | Settle c _ => c
  end.

(** The calls a run starts, in order. *)
Fixpoint calls_of (tr : list event) : list call :=
  match tr with
  | [] => []
  | Invoke c _ :: tr' | Issue c :: tr' => c :: calls_of tr'
  | Settle _ _ :: tr' => calls_of tr'
  end.

Definition is_template_lookup (c : call) : bool :=
  match c with GetTemplateByPurpose _ _ => true | _ => false end.

Definition is_link_code (c : call) : bool :=
  match c with GetResetPasswordCode _ | GetInviteCode _ => true | _ => false end.

Definition is_settings_context (c : call) : bool :=
  match c with GetSettingsTemplateContext _ _ => true | _ => false end.

Definition is_render (c : call) : bool :=
  match c with ProcessString _ _ => true | _ => false end.

Definition is_transport (c : call) : bool :=
  match c with CreateTransport _ | SendMail _ _ | Verify _ => true | _ => false end.

(** A call made by the composer, [buildEmail]. *)
Definition is_composition (c : call) : bool :=
  is_template_lookup c || is_link_code c || is_settings_context c || is_render c.

(** The options of the transports a run creates. *)
Fixpoint created (tr : list event) : list value :=
  match tr with
  | [] => []
  | Invoke (CreateTransport options) _ :: tr' => options :: created tr'
  | _ :: tr' => created tr'
  end.

(** The renders a run awaits: template, context and outcome. *)
Fixpoint renders (tr : list event) : list (value * value * outcome) :=
  match tr with
  | [] => []
  | Settle (ProcessString t ctx) o :: tr' => (t, ctx, o) :: renders tr'
  | _ :: tr' => renders tr'
  end.

(** What the renders of a run saw: the template of each, and the [styles] and
    the [body] of the context it was given. *)
Definition styles_and_body_seen (tr : list event)
  : list (value * result value * result value) :=
  (fun r => (fst (fst r), get_prop (snd (fst r)) "styles", get_prop (snd (fst r)) "body"))
    <$> renders tr.

(** No event of kind [p] comes after an event of kind [q]: all the [p] events
    are over when the first [q] event happens. *)
Fixpoint all_before (p q : event -> bool) (tr : list event) : bool :=
  match tr with
  | [] => true
  | e :: tr' =>
      (if q e then forallb (fun e' => negb (p e')) tr' else true) && all_before p q tr'
  end.

(** Two groups of asynchronous operations are started concurrently in a
    trace when every operation of either group is started before any
    operation of either group is awaited to its settlement. *)
Definition started (p : call -> bool) (e : event) : bool :=
  match e with Issue c => p c | _ => false end.

Definition settled (p : call -> bool) (e : event) : bool :=
  match e with Settle c _ => p c | _ => false end.

Definition issued_concurrently (p q : call -> bool) (tr : list event) : bool :=
  let both c := p c || q c in
  all_before (started both) (settled both) tr.

(** A purpose [buildEmail] composes. *)
Definition full_purpose (K : constants) (purpose : value) : Prop :=
  purpose ∈ VStr <$> FULL_EMAIL_PURPOSES K.

(** Absent: what a store gives when it has nothing. *)
Definition absent (v : value) : Prop := v = VNull ∨ v = VUndefined.

(** Every call a program can make, along any of its paths, is of kind [p]. *)
Inductive uses {A : Type} (p : call -> bool) : prog A -> Prop :=
| uses_Ret (a : A) : uses p (Ret a)
| uses_Throw (e : error) : uses p (Throw e)
| uses_Call (c : call) (k : value -> prog A) :
    p c = true -> (forall v, uses p (k v)) -> uses p (Call c k)
| uses_Await (c : call) (k : value -> prog A) :
    p c = true -> (forall v, uses p (k v)) -> uses p (Await c k)
| uses_AwaitAll (cs : list call) (k : list value -> prog A) :
    forallb p cs = true -> (forall vs, uses p (k vs)) -> uses p (AwaitAll cs k).

(** ** A concrete deployment

    Constants and collaborators to run the functions on: the identifiers of
    the upstream constants module, a config store and a template store given
    as arguments, and a substitution engine that shows which [styles] and
    [body] values its context carried. *)

Definition upstream : constants := {|
  GLOBAL_DB := VStr "global-db";
  TYPE := VStr "email";
  SMTP := VStr "smtp";
  BASE := "base";
  STYLES := "styles";
  INVITATION := "invitation";
  PASSWORD_RECOVERY := "password_recovery";
  WELCOME := "welcome";
|}.

(** How the sample deployment prints a value. *)
Definition text (v : value) : string :=
  match to_string v with
  | Returned s => s
  | Threw _ => ""
  end.

Definition sample_render (template context : value) : value :=
  VStr (text template +:+ "(" +:+ text (field context "styles") +:+ ","
          +:+ text (field context "body") +:+ ")").

Definition sample_world (config : outcome) (fragment : value -> outcome) : world :=
  fun c =>
    match c with
    | NewCouchDB _ => Resolved (VStr "db")
    | DetermineScopedConfig _ _ => config
    | CreateTransport _ => Resolved (VStr "transport")
    | SendMail _ _ => Resolved (VStr "250 OK")
    | Verify _ => Resolved (VBool true)
    | GetTemplateByPurpose _ purpose => fragment purpose
    | GetResetPasswordCode _ => Resolved (VStr "reset-code")
    | GetInviteCode _ => Resolved (VStr "invite-code")
    | GetSettingsTemplateContext _ code => Resolved (VObj {[ "code" := code ]})
    | ProcessString template context => Resolved (sample_render template context)
    end.

Definition sample_config : value :=
  VObj {[ "host" := VStr "smtp.example.com"; "port" := VNum 587;
          "selfSigned" := VBool true; "from" := VStr "noreply@example.com";
          "subject" := VStr "Hello" ]}.

(** Every fragment is stored. *)
Definition all_fragments (purpose : value) : outcome :=
  Resolved (VObj {[ "contents" := VStr ("<" +:+ text purpose +:+ ">") ]}).

(** Only the base and styles fragments are stored. *)
Definition shared_fragments (purpose : value) : outcome :=
  if strict_eq_str purpose "base" || strict_eq_str purpose "styles"
  then all_fragments purpose
  else Resolved VUndefined.

Definition configured : world := sample_world (Resolved sample_config) all_fragments.
Definition unconfigured : world := sample_world (Resolved VUndefined) all_fragments.
Definition bodiless : world := sample_world (Resolved sample_config) shared_fragments.

Definition alice : value := VStr "alice@example.com".
Definition alice_user : value := VObj {[ "_id" := VStr "us_alice" ]}.

(** The document the sample deployment composes for an invitation. *)
Definition sample_invitation : value :=
  VStr "<base>(<styles>(undefined,undefined),<invitation>(undefined,undefined))".

(** The query [getSmtpConfiguration] sends for no group, in the sample
    deployment. *)
Definition sample_query : call :=
  DetermineScopedConfig (VStr "db") (VObj {[ "type" := VStr "smtp" ]}).

(** The messages a run submits: transport and message of every [sendMail]
    it starts. *)
Fixpoint sent (tr : list event) : list (value * value) :=
  match tr with
  | [] => []
  | Issue (SendMail transport message) :: tr' => (transport, message) :: sent tr'
  | _ :: tr' => sent tr'
  end.

(** A deployment whose mail server refuses the handshake. *)
Definition unverifiable : world :=
  fun c =>
    match c with
    | Verify _ => Rejected (VStr "ECONNREFUSED")
    | _ => configured c
    end.

(** A deployment whose config store fails. *)
Definition storeless : world :=
  sample_world (Rejected (VStr "database unreachable")) all_fragments.

(** A deployment whose settings context has entries named [styles] and
    [body]. *)
Definition styled : world :=
  fun c =>
    match c with
    | GetSettingsTemplateContext _ _ =>
        Resolved (VObj {[ "styles" := VStr "S"; "body" := VStr "B" ]})
    | _ => configured c
    end.

(** The options of the transport for [sample_config]. *)
Definition sample_options : value :=
  VObj (<["tls" := VObj {[ "rejectUnauthorized" := VBool false ]}]>
          {[ "port" := VNum 587; "host" := VStr "smtp.example.com";
             "secure" := VBool false; "auth" := VUndefined ]}).

(** The invitation the sample deployment sends to [alice]. *)
Definition sample_message : value :=
  VObj {[ "from" := VStr "noreply@example.com"; "subject" := VStr "Hello";
          "to" := alice; "html" := sample_invitation ]}.

(** Symbolic execution of a run: case analysis on every outcome and test the
    goal is stuck on. *)
Ltac crunch :=
  repeat (simpl;
    match goal with
    | |- context [match ?w ?c with Resolved _ => _ | Rejected _ => _ end] =>
        destruct (w c) eqn:?
    | |- context [match get_prop ?u ?p with Returned _ => _ | Threw _ => _ end] =>
        destruct (get_prop u p) eqn:?
    | |- context [match to_string ?v with Returned _ => _ | Threw _ => _ end] =>
        destruct (to_string v) eqn:?
    | |- context [if ?b then _ else _] => destruct b eqn:?
    end).

(** Case analysis on a membership in an explicit trace. *)
Ltac elem_cases H :=
  rewrite ?elem_of_app, ?elem_of_cons, ?elem_of_nil in H;
  repeat match type of H with
    | _ ∨ _ => destruct H as [H|H]
    | False => destruct H
    end; try discriminate H.

(** Case analysis on a membership in a trace given by its parts. *)
Ltac in_cases H :=
  repeat (rewrite elem_of_app in H || rewrite elem_of_cons in H
          || rewrite elem_of_nil in H);
  repeat match type of H with
    | _ ∨ _ => destruct H as [H|H]
    | False => destruct H
    end; try discriminate H.

(** ** Runs of composed programs *)

Lemma after_nil {A : Type} (p : list event * result A) : after [] p = p.
Proof. by destruct p. Qed.

Lemma after_after {A : Type} (t1 t2 : list event) (p : list event * result A) :
  after t1 (after t2 p) = after (t1 ++ t2) p.
Proof. unfold after; simpl. by rewrite app_assoc. Qed.

Lemma ret_bind {A B : Type} (a : A) (f : A → prog B) : Ret a ≫= f = f a.
Proof. done. Qed.

Lemma run_bind {A B : Type} (w : world) (m : prog A) (f : A -> prog B) :
  run w (m ≫= f) =
  match snd (run w m) with
  | Returned a => after (fst (run w m)) (run w (f a))
  | Threw e => (fst (run w m), Threw e)
  end.
Proof.
  unfold mbind, prog_mbind.
  induction m as [a|e|c k IH|c k IH|cs k IH]; simpl.
  - by rewrite after_nil.
  - done.
  - destruct (w c) as [v|v]; [|done]. rewrite IH. unfold after at 3 4; simpl.
    destruct (snd (run w (k v))); [|done]. by rewrite after_after.
  - destruct (w c) as [v|v]; [|done]. rewrite IH. unfold after at 3 4; simpl.
    destruct (snd (run w (k v))); [|done]. by rewrite after_after.
  - destruct (all_resolved (map w cs)) as [vs|e]; [|done]. rewrite IH.
    unfold after at 3 4; simpl.
    destruct (snd (run w (k vs))); [|done]. by rewrite after_after.
Qed.

(** ** Which calls a program can make *)

Lemma uses_bind {A B : Type} (p : call → bool) (m : prog A) (f : A → prog B) :
  uses p m → (∀ a, uses p (f a)) → uses p (m ≫= f).
Proof.
  intros Hm Hf. unfold mbind, prog_mbind.
  induction Hm; simpl; try by constructor. apply Hf.
Qed.

Lemma uses_weaken {A : Type} (p q : call → bool) (m : prog A) :
  (∀ c, p c = true → q c = true) → uses p m → uses q m.
Proof.
  intros Hpq. induction 1; constructor; auto.
  rewrite forallb_forall in *. auto.
Qed.

Lemma uses_read (p : call → bool) (base : value) (prop : string) :
  uses p (read base prop).
Proof. unfold read. destruct (get_prop base prop); constructor. Qed.

(** A run only holds events of the calls its program can make. *)
Lemma uses_trace {A : Type} (p : call → bool) (w : world) (m : prog A) :
  uses p m → Forall (λ e, p (call_of e) = true) (trace_of w m).
Proof.
  unfold trace_of. induction 1 as [a|e|c k Hc _ IH|c k Hc _ IH|cs k Hcs _ IH]; simpl.
  - constructor.
  - constructor.
  - destruct (w c) as [v|v]; simpl; repeat constructor; auto.
  - destruct (w c) as [v|v]; simpl; repeat constructor; auto.
  - assert (Hbatch : Forall (λ e, p (call_of e) = true)
                       (map Issue cs ++ map (λ c, Settle c (w c)) cs)).
    { apply Forall_app; split; clear -Hcs;
        induction cs as [|c cs IHcs]; simpl in *; constructor;
        apply andb_prop in Hcs as [? ?]; auto. }
    destruct (all_resolved (map w cs)); simpl; [|done].
    apply Forall_app; auto.
Qed.

Lemma calls_of_Forall (p : call → bool) (b : bool) (tr : list event) :
  Forall (λ e, p (call_of e) = b) tr → Forall (λ c, p c = b) (calls_of tr).
Proof.
  induction 1 as [|e tr He _ IH]; [constructor|].
  destruct e; simpl; auto.
Qed.

Lemma renders_app (t1 t2 : list event) : renders (t1 ++ t2) = renders t1 ++ renders t2.
Proof.
  induction t1 as [|e t1 IH]; [done|].
  destruct e as [c o|c|c o]; simpl; try done. destruct c; simpl; by rewrite ?IH.
Qed.

Lemma renders_none (tr : list event) :
  Forall (λ e, is_render (call_of e) = false) tr → renders tr = [].
Proof.
  induction 1 as [|e tr He _ IH]; [done|].
  destruct e as [c o|c|c o]; simpl; try done. by destruct c.
Qed.

Lemma created_none (tr : list event) :
  Forall (λ e, match call_of e with CreateTransport _ => false | _ => true end = true) tr →
  created tr = [].
Proof.
  induction 1 as [|e tr He _ IH]; [done|].
  destruct e as [c o|c|c o]; simpl; try done. by destruct c.
Qed.

(** ** Values and purposes *)

Lemma absent_nullish (v : value) : absent v ↔ nullish v = true.
Proof. unfold absent. destruct v; simpl; intuition congruence. Qed.

Lemma nullish_falsy (v : value) : nullish v = true → truthy v = false.
Proof. by destruct v. Qed.

Lemma truthy_read (v : value) (p : string) :
  truthy v = true → read v p = Ret (field v p).
Proof. by destruct v. Qed.

Lemma strict_eq_str_true (v : value) (s : string) :
  strict_eq_str v s = true ↔ v = VStr s.
Proof.
  destruct v; simpl; try (split; [done | congruence]).
  rewrite String.eqb_eq. split; congruence.
Qed.

Lemma strict_eq_str_false (v : value) (s : string) :
  strict_eq_str v s = false ↔ v ≠ VStr s.
Proof.
  rewrite <- strict_eq_str_true. destruct (strict_eq_str v s); split; congruence.
Qed.

Lemma indexOf_full_purpose (K : constants) (purpose : value) :
  (indexOf (FULL_EMAIL_PURPOSES K) purpose =? -1) = false ↔ full_purpose K purpose.
Proof.
  unfold full_purpose, indexOf, FULL_EMAIL_PURPOSES; simpl.
  rewrite !elem_of_cons, elem_of_nil, <- !strict_eq_str_true.
  destruct (strict_eq_str purpose (INVITATION K)),
    (strict_eq_str purpose (PASSWORD_RECOVERY K)),
    (strict_eq_str purpose (WELCOME K)); simpl; intuition congruence.
Qed.

Lemma indexOf_not_full_purpose (K : constants) (purpose : value) :
  (indexOf (FULL_EMAIL_PURPOSES K) purpose =? -1) = true ↔ ¬ full_purpose K purpose.
Proof.
  rewrite <- indexOf_full_purpose.
  destruct (indexOf (FULL_EMAIL_PURPOSES K) purpose =? -1); split; congruence.
Qed.

(** ** The transport construction *)

Lemma createSMTPTransport_uses (config : value) :
  uses is_transport (createSMTPTransport config).
Proof.
  unfold createSMTPTransport.
  repeat (apply uses_bind; [apply uses_read | intros ?]).
  by repeat constructor.
Qed.

(** On a configuration that is neither [null] nor [undefined], the
    construction is one call of [createTransport], on these options. *)
Lemma createSMTPTransport_options (config : value) :
  nullish config = false →
  ∃ options : gmap string value,
    createSMTPTransport config = Call (CreateTransport (VObj options)) Ret
    ∧ options !! "host" = Some (field config "host")
    ∧ options !! "port" = Some (field config "port")
    ∧ options !! "secure" = Some (js_or (field config "secure") (VBool false))
    ∧ options !! "auth" = Some (field config "auth")
    ∧ options !! "tls" = (if truthy (field config "selfSigned")
                          then Some (VObj {[ "rejectUnauthorized" := VBool false ]})
                          else None).
Proof.
  intros Hconfig.
  assert (Hget : ∀ p, read config p = Ret (field config p))
    by (intros p; by destruct config).
  unfold createSMTPTransport. rewrite !Hget.
  eexists. split; [reflexivity|].
  destruct (truthy (field config "selfSigned")); by simplify_map_eq.
Qed.

(** ** The link-code resolver *)

(** The resolver calls nothing but the code issuer. *)
Lemma getLinkCode_uses (K : constants) (purpose email user : value) :
  uses is_link_code (getLinkCode K purpose email user).
Proof.
  unfold getLinkCode.
  repeat case_match; repeat (apply uses_bind; [apply uses_read | intros ?]);
    by repeat constructor.
Qed.

(** C6: [getLinkCode] is a dispatch on the purpose alone. For
    PASSWORD_RECOVERY it is the request of a reset code for the user's [_id],
    not for the email address; for INVITATION it is the request of an invite
    code for the email address; for any other purpose it is [null], with no
    call to the code issuer. *)
Theorem getLinkCode_dispatch (K : constants) (purpose email user : value) :
  (∀ userId, purpose = VStr (PASSWORD_RECOVERY K) →
     get_prop user "_id" = Returned userId →
     getLinkCode K purpose email user = Await (GetResetPasswordCode userId) Ret)
  ∧ (purpose = VStr (INVITATION K) → INVITATION K ≠ PASSWORD_RECOVERY K →
     getLinkCode K purpose email user = Await (GetInviteCode email) Ret)
  ∧ (purpose ≠ VStr (PASSWORD_RECOVERY K) → purpose ≠ VStr (INVITATION K) →
     getLinkCode K purpose email user = Ret VNull).
Proof.
  unfold getLinkCode. repeat split.
  - intros userId -> Hid. simpl. rewrite String.eqb_refl.
    unfold read. by rewrite Hid.
  - intros -> Hne. simpl. rewrite String.eqb_refl.
    by apply String.eqb_neq in Hne as ->.
  - intros H1%strict_eq_str_false H2%strict_eq_str_false. by rewrite H1, H2.
Qed.

Lemma getLinkCode_dispatch_witness :
  getLinkCode upstream (VStr "password_recovery") alice alice_user
    = Await (GetResetPasswordCode (VStr "us_alice")) Ret
  ∧ getLinkCode upstream (VStr "invitation") alice VUndefined
    = Await (GetInviteCode alice) Ret
  ∧ getLinkCode upstream (VStr "welcome") alice VUndefined = Ret VNull.
Proof.
  split; [|split].
  - apply (getLinkCode_dispatch upstream (VStr "password_recovery") alice alice_user);
      reflexivity.
  - apply (getLinkCode_dispatch upstream (VStr "invitation") alice VUndefined);
      [reflexivity | discriminate].
  - apply (getLinkCode_dispatch upstream (VStr "welcome") alice VUndefined);
      discriminate.
Defined.

Lemma getLinkCode_password_recovery_without_user_run
    (K : constants) (w : world) (email user : value) :
  absent user →
  run w (getLinkCode K (VStr (PASSWORD_RECOVERY K)) email user)
    = ([], Threw (TypeError user "_id")).
Proof.
  intros [-> | ->]; unfold getLinkCode; simpl; by rewrite String.eqb_refl.
Qed.

(** C7: a PASSWORD_RECOVERY request without a user record reads [_id] of the
    missing user with no guard in front: the resolver fails with the
    TypeError of that access, before any call to the code issuer. *)
Theorem getLinkCode_password_recovery_without_user
    (K : constants) (w : world) (email user : value) :
  absent user →
  run w (getLinkCode K (VStr (PASSWORD_RECOVERY K)) email user)
    = ([], Threw (TypeError user "_id")).
Proof. apply getLinkCode_password_recovery_without_user_run. Qed.

Lemma getLinkCode_password_recovery_without_user_witness :
  absent VUndefined
  ∧ run configured (getLinkCode upstream (VStr "password_recovery") alice VUndefined)
    = ([], Threw (TypeError VUndefined "_id")).
Proof.
  split; [by right|].
  apply (getLinkCode_password_recovery_without_user upstream configured alice VUndefined).
  by right.
Defined.

(** ** The composer *)

(** The composer calls the template store, the code issuer, the settings
    context and the substitution engine, and nothing else. *)
Lemma buildEmail_uses (K : constants) (purpose email user : value) :
  uses is_composition (buildEmail K purpose email user).
Proof.
  unfold buildEmail. case_match; [case_match; constructor|].
  constructor; [done|]. intros fragments. case_match; [constructor|].
  repeat (apply uses_bind; [apply uses_read | intros ?]).
  apply uses_bind.
  { eapply uses_weaken, getLinkCode_uses. by intros []. }
  intros code.
  repeat (first [ apply uses_bind | constructor | done | intros ? ]).
Qed.

(** C4: for a purpose outside INVITATION, PASSWORD_RECOVERY and WELCOME,
    [buildEmail] fails at once: the trace is empty, so no template lookup,
    no link-code lookup and no other external call is made. What it throws is
    the message naming the purpose, or the TypeError of the purpose's
    conversion to a string when that fails; for a purpose that is a string
    the message ends with the purpose itself. *)
Theorem buildEmail_rejects_other_purposes
    (K : constants) (w : world) (purpose email user : value) :
  ¬ full_purpose K purpose →
  (∃ e, run w (buildEmail K purpose email user) = ([], Threw e))
  ∧ run w (buildEmail K purpose email user)
    = ([], match to_string purpose with
           | Returned type =>
               Threw (Thrown (VStr ("Unable to build an email of type " +:+ type)))
           | Threw e => Threw e
           end)
  ∧ (∀ type, purpose = VStr type →
     run w (buildEmail K purpose email user)
       = ([], Threw (Thrown (VStr ("Unable to build an email of type " +:+ type))))).
Proof.
  intros H%indexOf_not_full_purpose. unfold buildEmail. rewrite H.
  split_and!.
  - destruct (to_string purpose); by eexists.
  - by destruct (to_string purpose).
  - by intros type ->.
Qed.

Lemma buildEmail_rejects_other_purposes_witness :
  ¬ full_purpose upstream (VStr "base")
  ∧ run configured (buildEmail upstream (VStr "base") alice VUndefined)
    = ([], Threw (Thrown (VStr "Unable to build an email of type base"))).
Proof.
  assert (H : ¬ full_purpose upstream (VStr "base"))
    by (apply indexOf_not_full_purpose; reflexivity).
  split; [exact H|].
  exact (proj2 (proj2 (buildEmail_rejects_other_purposes upstream configured (VStr "base")
                         alice VUndefined H)) "base" eq_refl).
Defined.

(** C3: for a full purpose, when the three lookups resolve and one of the
    fragments is absent, composition fails with the message about missing
    base components; the trace holds the three lookups and nothing else, so
    the substitution engine is never called and no document is returned. *)
Theorem buildEmail_missing_fragment
    (K : constants) (w : world) (purpose email user base styles body : value) :
  full_purpose K purpose →
  w (GetTemplateByPurpose (TYPE K) (VStr (BASE K))) = Resolved base →
  w (GetTemplateByPurpose (TYPE K) (VStr (STYLES K))) = Resolved styles →
  w (GetTemplateByPurpose (TYPE K) purpose) = Resolved body →
  absent base ∨ absent styles ∨ absent body →
  let lookups := [GetTemplateByPurpose (TYPE K) (VStr (BASE K));
                  GetTemplateByPurpose (TYPE K) (VStr (STYLES K));
                  GetTemplateByPurpose (TYPE K) purpose] in
  run w (buildEmail K purpose email user)
    = (map Issue lookups ++ map (λ c, Settle c (w c)) lookups,
       Threw (Thrown (VStr "Unable to build email, missing base components")))
  ∧ Forall (λ c, is_render c = false) (calls_of (trace_of w (buildEmail K purpose email user))).
Proof.
  intros Hfull%indexOf_full_purpose Hb Hs Hp Habsent lookups.
  assert (Hfalsy : negb (truthy base) || negb (truthy styles) || negb (truthy body) = true).
  { destruct Habsent as [H|[H|H]]; apply absent_nullish, nullish_falsy in H;
      rewrite H; simpl; by rewrite ?orb_true_r. }
  assert (Hrun : run w (buildEmail K purpose email user)
    = (map Issue lookups ++ map (λ c, Settle c (w c)) lookups,
       Threw (Thrown (VStr "Unable to build email, missing base components")))).
  { unfold buildEmail. rewrite Hfull. simpl. rewrite Hb, Hs, Hp. simpl.
    by rewrite Hfalsy. }
  split; [exact Hrun|].
  unfold trace_of. rewrite Hrun. simpl. by repeat constructor.
Qed.

Lemma buildEmail_missing_fragment_witness :
  full_purpose upstream (VStr "welcome")
  ∧ absent VUndefined
  ∧ run bodiless (buildEmail upstream (VStr "welcome") alice VUndefined)
    = ([Issue (GetTemplateByPurpose (VStr "email") (VStr "base"));
        Issue (GetTemplateByPurpose (VStr "email") (VStr "styles"));
        Issue (GetTemplateByPurpose (VStr "email") (VStr "welcome"));
        Settle (GetTemplateByPurpose (VStr "email") (VStr "base"))
          (all_fragments (VStr "base"));
        Settle (GetTemplateByPurpose (VStr "email") (VStr "styles"))
          (all_fragments (VStr "styles"));
        Settle (GetTemplateByPurpose (VStr "email") (VStr "welcome"))
          (Resolved VUndefined)],
       Threw (Thrown (VStr "Unable to build email, missing base components"))).
Proof.
  assert (H : full_purpose upstream (VStr "welcome"))
    by (apply indexOf_full_purpose; reflexivity).
  assert (Habsent : absent VUndefined) by (by right).
  split; [exact H|]. split; [exact Habsent|].
  exact (proj1 (buildEmail_missing_fragment upstream bodiless (VStr "welcome") alice
                  VUndefined _ _ _ H eq_refl eq_refl eq_refl
                  (or_intror (or_intror Habsent)))).
Defined.

(** C1, as the specification states it, fails: composing an invitation in a
    deployment that stores every fragment, the invite code is requested
    only after the three template lookups have settled, so the lookups and
    the link-code resolution are not started concurrently. *)
Lemma buildEmail_link_code_not_concurrent :
  full_purpose upstream (VStr "invitation")
  ∧ issued_concurrently is_template_lookup is_link_code
      (trace_of configured (buildEmail upstream (VStr "invitation") alice VUndefined))
    = false
  ∧ take 8 (trace_of configured (buildEmail upstream (VStr "invitation") alice VUndefined))
    = [Issue (GetTemplateByPurpose (VStr "email") (VStr "base"));
       Issue (GetTemplateByPurpose (VStr "email") (VStr "styles"));
       Issue (GetTemplateByPurpose (VStr "email") (VStr "invitation"));
       Settle (GetTemplateByPurpose (VStr "email") (VStr "base"))
         (all_fragments (VStr "base"));
       Settle (GetTemplateByPurpose (VStr "email") (VStr "styles"))
         (all_fragments (VStr "styles"));
       Settle (GetTemplateByPurpose (VStr "email") (VStr "invitation"))
         (all_fragments (VStr "invitation"));
       Issue (GetInviteCode alice);
       Settle (GetInviteCode alice) (Resolved (VStr "invite-code"))].
Proof.
  split; [apply indexOf_full_purpose; reflexivity|].
  split; vm_compute; reflexivity.
Qed.

(** C1, amended: for a full purpose the three template lookups are started
    concurrently; the link-code resolution is started only after the lookups
    have settled, and only when the three fragments are there; the lookups
    and the link-code resolution are over before the settings context is
    requested and before any render. *)
Theorem buildEmail_lookups_then_link_code
    (K : constants) (w : world) (purpose email user : value) :
  full_purpose K purpose →
  let tr := trace_of w (buildEmail K purpose email user) in
  issued_concurrently is_template_lookup is_template_lookup tr = true
  ∧ all_before (λ e, is_template_lookup (call_of e)) (λ e, is_link_code (call_of e)) tr
    = true
  ∧ all_before (λ e, is_template_lookup (call_of e) || is_link_code (call_of e))
      (λ e, is_settings_context (call_of e) || is_render (call_of e)) tr
    = true
  ∧ (existsb (λ e, is_link_code (call_of e)) tr = true →
     ∃ base styles body,
       w (GetTemplateByPurpose (TYPE K) (VStr (BASE K))) = Resolved base
       ∧ w (GetTemplateByPurpose (TYPE K) (VStr (STYLES K))) = Resolved styles
       ∧ w (GetTemplateByPurpose (TYPE K) purpose) = Resolved body
       ∧ truthy base = true ∧ truthy styles = true ∧ truthy body = true).
Proof.
  intros Hfull%indexOf_full_purpose tr. subst tr.
  unfold trace_of, buildEmail, issued_concurrently. rewrite Hfull.
  unfold getLinkCode, read, mbind, prog_mbind. simpl.
  destruct (w (GetTemplateByPurpose (TYPE K) (VStr (BASE K)))) as [base|] eqn:Hb;
    destruct (w (GetTemplateByPurpose (TYPE K) (VStr (STYLES K)))) as [styles|] eqn:Hs;
    destruct (w (GetTemplateByPurpose (TYPE K) purpose)) as [body|] eqn:Hp;
    simpl; try done.
  destruct (truthy base) eqn:Tb; [|done].
  destruct (truthy styles) eqn:Ts; [|done].
  destruct (truthy body) eqn:Tp; [|done].
  crunch; split_and!; try done; intros _; by exists base, styles, body.
Qed.

Lemma buildEmail_lookups_then_link_code_witness :
  full_purpose upstream (VStr "password_recovery")
  ∧ issued_concurrently is_template_lookup is_template_lookup
      (trace_of configured (buildEmail upstream (VStr "password_recovery") alice alice_user))
    = true
  ∧ all_before (λ e, is_template_lookup (call_of e)) (λ e, is_link_code (call_of e))
      (trace_of configured (buildEmail upstream (VStr "password_recovery") alice alice_user))
    = true
  ∧ all_before (λ e, is_template_lookup (call_of e) || is_link_code (call_of e))
      (λ e, is_settings_context (call_of e) || is_render (call_of e))
      (trace_of configured (buildEmail upstream (VStr "password_recovery") alice alice_user))
    = true
  ∧ (existsb (λ e, is_link_code (call_of e))
       (trace_of configured (buildEmail upstream (VStr "password_recovery") alice alice_user))
     = true →
     ∃ base styles body,
       configured (GetTemplateByPurpose (VStr "email") (VStr "base")) = Resolved base
       ∧ configured (GetTemplateByPurpose (VStr "email") (VStr "styles")) = Resolved styles
       ∧ configured (GetTemplateByPurpose (VStr "email") (VStr "password_recovery"))
         = Resolved body
       ∧ truthy base = true ∧ truthy styles = true ∧ truthy body = true).
Proof.
  assert (H : full_purpose upstream (VStr "password_recovery"))
    by (apply indexOf_full_purpose; reflexivity).
  split; [exact H|].
  exact (buildEmail_lookups_then_link_code upstream configured
           (VStr "password_recovery") alice alice_user H).
Defined.

(** X17: With the three fragments stored, a PASSWORD_RECOVERY composition without
    a user record ends in the TypeError of the resolver, after the lookups
    and before any other call. *)
Lemma buildEmail_password_recovery_without_user
    (K : constants) (w : world) (email user base styles body : value) :
  absent user →
  w (GetTemplateByPurpose (TYPE K) (VStr (BASE K))) = Resolved base →
  w (GetTemplateByPurpose (TYPE K) (VStr (STYLES K))) = Resolved styles →
  w (GetTemplateByPurpose (TYPE K) (VStr (PASSWORD_RECOVERY K))) = Resolved body →
  truthy base = true → truthy styles = true → truthy body = true →
  let lookups := [GetTemplateByPurpose (TYPE K) (VStr (BASE K));
                  GetTemplateByPurpose (TYPE K) (VStr (STYLES K));
                  GetTemplateByPurpose (TYPE K) (VStr (PASSWORD_RECOVERY K))] in
  run w (buildEmail K (VStr (PASSWORD_RECOVERY K)) email user)
    = (map Issue lookups ++ map (λ c, Settle c (w c)) lookups,
       Threw (TypeError user "_id")).
Proof.
  intros Huser Hb Hs Hp Tb Ts Tp lookups.
  assert (Hfull : full_purpose K (VStr (PASSWORD_RECOVERY K))).
  { unfold full_purpose, FULL_EMAIL_PURPOSES. simpl.
    rewrite !elem_of_cons. by right; left. }
  apply indexOf_full_purpose in Hfull.
  unfold buildEmail. rewrite Hfull. simpl. rewrite Hb, Hs, Hp. simpl.
  rewrite Tb, Ts, Tp. simpl. rewrite !truthy_read, !ret_bind by done.
  rewrite run_bind, (getLinkCode_password_recovery_without_user_run K w email user Huser).
  done.
Qed.

Lemma buildEmail_password_recovery_without_user_witness :
  absent VUndefined
  ∧ result_of configured
      (buildEmail upstream (VStr (PASSWORD_RECOVERY upstream)) alice VUndefined)
    = Threw (TypeError VUndefined "_id").
Proof.
  assert (H : absent VUndefined) by (by right).
  split; [exact H|].
  exact (f_equal snd
           (buildEmail_password_recovery_without_user upstream configured alice VUndefined
              _ _ _ H eq_refl eq_refl eq_refl eq_refl eq_refl eq_refl)).
Defined.

(** C5, as the specification states it, fails in its last clause: when the
    settings context has entries named [styles] and [body], the body and the
    styles renders see them. Here the sample engine prints the [styles] and
    [body] of the context it was given after each template. *)
Lemma buildEmail_renders_see_settings_entries :
  styles_and_body_seen
      (trace_of styled (buildEmail upstream (VStr "welcome") alice VUndefined))
    = [ (VStr "<welcome>", Returned (VStr "S"), Returned (VStr "B"));
        (VStr "<styles>", Returned (VStr "S"), Returned (VStr "B"));
        (VStr "<base>", Returned (VStr "<styles>(S,B)"), Returned (VStr "<welcome>(S,B)")) ]
  ∧ result_of styled (buildEmail upstream (VStr "welcome") alice VUndefined)
    = Returned (VStr "<base>(<styles>(S,B),<welcome>(S,B))").
Proof. split; vm_compute; reflexivity. Qed.

(** C5, amended: in a composition that returns a document, the engine is
    called three times, on the body, then the styles, then the base fragment.
    The first two calls get one and the same context, built from the settings
    context, the email and the user, in which [styles] and [body] are exactly
    what the settings context holds under these names (nothing, when it has
    no such entries); the third gets that context with [styles] and [body]
    set to the results of the first two calls, and its result is the
    document. *)
Theorem buildEmail_rendering_order
    (K : constants) (w : world) (purpose email user html : value) :
  result_of w (buildEmail K purpose email user) = Returned html →
  ∃ base styles body code settings rbody rstyles,
    w (GetTemplateByPurpose (TYPE K) (VStr (BASE K))) = Resolved base
    ∧ w (GetTemplateByPurpose (TYPE K) (VStr (STYLES K))) = Resolved styles
    ∧ w (GetTemplateByPurpose (TYPE K) purpose) = Resolved body
    ∧ result_of w (getLinkCode K purpose email user) = Returned code
    ∧ w (GetSettingsTemplateContext purpose code) = Resolved settings
    ∧ ∃ context : gmap string value,
        context = <["user" := js_or user (VObj ∅)]>
                    (<["email" := email]> (own_props settings))
        ∧ renders (trace_of w (buildEmail K purpose email user))
          = [ (field body "contents", VObj context, Resolved rbody);
              (field styles "contents", VObj context, Resolved rstyles);
              (field base "contents",
               VObj (<["body" := rbody]> (<["styles" := rstyles]> context)),
               Resolved html) ]
        ∧ context !! "styles" = own_props settings !! "styles"
        ∧ context !! "body" = own_props settings !! "body".
Proof.
  unfold result_of, trace_of, buildEmail.
  destruct (indexOf (FULL_EMAIL_PURPOSES K) purpose =? -1);
    [by destruct (to_string purpose)|].
  simpl.
  destruct (w (GetTemplateByPurpose (TYPE K) (VStr (BASE K)))) as [base|] eqn:Hb; [|done].
  destruct (w (GetTemplateByPurpose (TYPE K) (VStr (STYLES K)))) as [styles|] eqn:Hs; [|done].
  destruct (w (GetTemplateByPurpose (TYPE K) purpose)) as [body|] eqn:Hp; [|done].
  simpl.
  destruct (truthy base) eqn:Tb; [|done].
  destruct (truthy styles) eqn:Ts; [|done].
  destruct (truthy body) eqn:Tp; [|done].
  simpl. rewrite !truthy_read, !ret_bind by done.
  rewrite run_bind.
  pose proof (uses_trace _ w _ (getLinkCode_uses K purpose email user)) as Hcode.
  apply (Forall_impl _ (λ e, is_render (call_of e) = false)) in Hcode;
    [|by intros [[]|[]|[]]].
  apply renders_none in Hcode. unfold trace_of in Hcode.
  destruct (run w (getLinkCode K purpose email user)) as [tr [code|e]]; [|done].
  simpl in *. rewrite renders_app, Hcode. simpl.
  destruct (w (GetSettingsTemplateContext purpose code)) as [settings|] eqn:Hsettings;
    [|done].
  simpl.
  set (context := <["user" := js_or user (VObj ∅)]>
                    (<["email" := email]> (own_props settings))).
  destruct (w (ProcessString (field body "contents") (VObj context)))
    as [rbody|] eqn:Hrb; [|done].
  simpl.
  destruct (w (ProcessString (field styles "contents") (VObj context)))
    as [rstyles|] eqn:Hrs; [|done].
  simpl.
  destruct (w (ProcessString (field base "contents") _)) as [doc|] eqn:Hdoc; [|done].
  simpl. intros [= ->].
  exists base, styles, body, code, settings, rbody, rstyles.
  repeat (split; [done|]). exists context.
  repeat (split; [done|]).
  unfold context. by rewrite !lookup_insert_ne.
Qed.

Lemma buildEmail_rendering_order_witness :
  result_of configured (buildEmail upstream (VStr "invitation") alice VUndefined)
    = Returned sample_invitation
  ∧ ∃ base styles body code settings rbody rstyles,
      configured (GetTemplateByPurpose (VStr "email") (VStr "base")) = Resolved base
      ∧ configured (GetTemplateByPurpose (VStr "email") (VStr "styles")) = Resolved styles
      ∧ configured (GetTemplateByPurpose (VStr "email") (VStr "invitation")) = Resolved body
      ∧ result_of configured (getLinkCode upstream (VStr "invitation") alice VUndefined)
        = Returned code
      ∧ configured (GetSettingsTemplateContext (VStr "invitation") code) = Resolved settings
      ∧ ∃ context : gmap string value,
          context = <["user" := js_or VUndefined (VObj ∅)]>
                      (<["email" := alice]> (own_props settings))
          ∧ renders (trace_of configured
                       (buildEmail upstream (VStr "invitation") alice VUndefined))
            = [ (field body "contents", VObj context, Resolved rbody);
                (field styles "contents", VObj context, Resolved rstyles);
                (field base "contents",
                 VObj (<["body" := rbody]> (<["styles" := rstyles]> context)),
                 Resolved sample_invitation) ]
          ∧ context !! "styles" = own_props settings !! "styles"
          ∧ context !! "body" = own_props settings !! "body".
Proof.
  assert (H : result_of configured (buildEmail upstream (VStr "invitation") alice VUndefined)
                = Returned sample_invitation) by (vm_compute; reflexivity).
  split; [exact H|].
  exact (buildEmail_rendering_order upstream configured (VStr "invitation") alice
           VUndefined sample_invitation H).
Defined.

(** ** The configuration check *)

(** C2, as the specification states it, fails: [isEmailConfigured] does
    throw. When the lookup of the config store is rejected, the function
    fails with the store's error; it does not answer [false]. *)
Lemma isEmailConfigured_throws_on_store_failure :
  run storeless (isEmailConfigured upstream VUndefined)
    = ([Invoke (NewCouchDB (VStr "global-db")) (Resolved (VStr "db"));
        Issue sample_query;
        Settle sample_query (Rejected (VStr "database unreachable"))],
       Threw (Thrown (VStr "database unreachable"))).
Proof. vm_compute. reflexivity. Qed.

(** C2, amended: [isEmailConfigured] opens the global database and asks the
    config store for the SMTP configuration of the scope (the scope being the
    group of the query when it is truthy). When the store resolves, the
    function returns a boolean without throwing: [true] exactly when what the
    store resolved is not absent, [false] when it is absent. When the store
    rejects, the function fails with the store's error. *)
Theorem isEmailConfigured_by_store
    (K : constants) (w : world) (groupId db params : value) :
  w (NewCouchDB (GLOBAL_DB K)) = Resolved db →
  params = VObj (if truthy groupId
                 then {[ "group" := groupId; "type" := SMTP K ]}
                 else {[ "type" := SMTP K ]}) →
  (∀ config, w (DetermineScopedConfig db params) = Resolved config →
     run w (isEmailConfigured K groupId)
       = ([Invoke (NewCouchDB (GLOBAL_DB K)) (Resolved db);
           Issue (DetermineScopedConfig db params);
           Settle (DetermineScopedConfig db params) (Resolved config)],
          Returned (VBool (negb (nullish config))))
     ∧ (result_of w (isEmailConfigured K groupId) = Returned (VBool true)
        ↔ ¬ absent config)
     ∧ (absent config →
        result_of w (isEmailConfigured K groupId) = Returned (VBool false)))
  ∧ (∀ e, w (DetermineScopedConfig db params) = Rejected e →
     run w (isEmailConfigured K groupId)
       = ([Invoke (NewCouchDB (GLOBAL_DB K)) (Resolved db);
           Issue (DetermineScopedConfig db params);
           Settle (DetermineScopedConfig db params) (Rejected e)],
          Threw (Thrown e))).
Proof.
  intros Hdb ->.
  assert (Hprog : isEmailConfigured K groupId
                  = Call (NewCouchDB (GLOBAL_DB K))
                      (λ db', Await (DetermineScopedConfig db'
                                (VObj (if truthy groupId
                                       then {[ "group" := groupId; "type" := SMTP K ]}
                                       else {[ "type" := SMTP K ]})))
                              (λ config, Ret (VBool (negb (nullish config)))))).
  { unfold isEmailConfigured, getSmtpConfiguration. by destruct groupId. }
  split.
  - intros config Hconfig.
    assert (Hrun : run w (isEmailConfigured K groupId)
      = ([Invoke (NewCouchDB (GLOBAL_DB K)) (Resolved db);
          Issue (DetermineScopedConfig db
                   (VObj (if truthy groupId
                          then {[ "group" := groupId; "type" := SMTP K ]}
                          else {[ "type" := SMTP K ]})));
          Settle (DetermineScopedConfig db
                    (VObj (if truthy groupId
                           then {[ "group" := groupId; "type" := SMTP K ]}
                           else {[ "type" := SMTP K ]}))) (Resolved config)],
         Returned (VBool (negb (nullish config))))).
    { rewrite Hprog. simpl. rewrite Hdb. simpl. by rewrite Hconfig. }
    split; [exact Hrun|]. unfold result_of. rewrite Hrun. simpl.
    rewrite absent_nullish. destruct (nullish config); simpl; intuition congruence.
  - intros e He. rewrite Hprog. simpl. rewrite Hdb. simpl. by rewrite He.
Qed.

Lemma isEmailConfigured_by_store_witness :
  unconfigured (NewCouchDB (GLOBAL_DB upstream)) = Resolved (VStr "db")
  ∧ unconfigured sample_query = Resolved VUndefined
  ∧ run unconfigured (isEmailConfigured upstream VUndefined)
    = ([Invoke (NewCouchDB (VStr "global-db")) (Resolved (VStr "db"));
        Issue sample_query; Settle sample_query (Resolved VUndefined)],
       Returned (VBool false)).
Proof.
  split; [reflexivity|]. split; [reflexivity|].
  exact (proj1 (proj1 (isEmailConfigured_by_store upstream unconfigured VUndefined
                         (VStr "db") (VObj {[ "type" := VStr "smtp" ]})
                         eq_refl eq_refl) VUndefined eq_refl)).
Defined.

(** X16: [isEmailConfigured] raises nothing of its own: when it fails, a
    collaborator it called has thrown or rejected, with that very value. *)
Lemma isEmailConfigured_failures (K : constants) (w : world) (groupId : value) (e : error) :
  result_of w (isEmailConfigured K groupId) = Threw e →
  ∃ c v, e = Thrown v ∧ w c = Rejected v
         ∧ c ∈ calls_of (trace_of w (isEmailConfigured K groupId)).
Proof.
  unfold trace_of, result_of, isEmailConfigured, getSmtpConfiguration.
  unfold mbind, prog_mbind. simpl.
  destruct (w (NewCouchDB (GLOBAL_DB K))) as [db|v] eqn:Hdb; simpl.
  - match goal with |- context [w ?c] => destruct (w c) as [config|v] eqn:Hw end; simpl;
      [done|].
    intros [= <-]. eexists _, v. split; [done|]. split; [exact Hw|].
    rewrite !elem_of_cons. by right; left.
  - intros [= <-]. eexists _, v. split; [done|]. split; [exact Hdb|].
    rewrite !elem_of_cons. by left.
Qed.

Lemma isEmailConfigured_failures_witness :
  result_of storeless (isEmailConfigured upstream VUndefined)
    = Threw (Thrown (VStr "database unreachable"))
  ∧ ∃ c v, Thrown (VStr "database unreachable") = Thrown v ∧ storeless c = Rejected v
           ∧ c ∈ calls_of (trace_of storeless (isEmailConfigured upstream VUndefined)).
Proof.
  assert (H : result_of storeless (isEmailConfigured upstream VUndefined)
              = Threw (Thrown (VStr "database unreachable"))) by reflexivity.
  split; [exact H|].
  exact (isEmailConfigured_failures upstream storeless VUndefined _ H).
Defined.

(** ** The dispatcher *)

(** A run of [sendEmail] in which the config store resolved a configuration:
    the options were readable, and the run is the lookup followed by the
    guard, the construction, the composition and the submission. *)
Lemma sendEmail_resolved
    (K : constants) (w : world) (email purpose opts db params config : value) :
  Settle (DetermineScopedConfig db params) (Resolved config)
    ∈ trace_of w (sendEmail K email purpose opts) →
  ∃ user,
    get_prop (default_param opts (VObj ∅)) "user" = Returned user
    ∧ run w (sendEmail K email purpose opts)
      = after [Invoke (NewCouchDB (GLOBAL_DB K)) (Resolved db);
               Issue (DetermineScopedConfig db params);
               Settle (DetermineScopedConfig db params) (Resolved config)]
          (run w (if negb (truthy config) then
                    Throw (Thrown (VStr "Unable to find SMTP configuration."))
                  else
                    transport ← createSMTPTransport config;
                    html ← buildEmail K purpose email user;
                    Await (SendMail transport
                             (VObj {[ "from" := field config "from";
                                      "subject" := field config "subject";
                                      "to" := email; "html" := html ]})) Ret)).
Proof.
  unfold trace_of, sendEmail. set (opts' := default_param opts (VObj ∅)).
  unfold read.
  destruct (get_prop opts' "groupId") as [groupId|]; [|intros H; elem_cases H].
  destruct (get_prop opts' "user") as [user|]; [|intros H; elem_cases H].
  rewrite !ret_bind. unfold getSmtpConfiguration.
  rewrite !run_bind. simpl.
  destruct (w (NewCouchDB (GLOBAL_DB K))) as [db'|]; simpl; [|intros H; elem_cases H].
  match goal with |- context [w ?c] => destruct (w c) as [config'|] eqn:Hw end; simpl;
    [|intros H; elem_cases H].
  unfold after at 1. simpl. intros H. exists user. split; [done|].
  match type of Hw with w (DetermineScopedConfig _ ?q) = _ => set (query := q) in * end.
  clearbody query.
  assert (Hsame : db' = db ∧ config' = config ∧ query = params).
  { elem_cases H.
    - by injection H as <- <- <-.
    - exfalso. destruct (truthy config') eqn:Ht; simpl in H; [|elem_cases H].
      match type of H with _ ∈ (run w ?m).1 =>
        assert (Hu : uses (λ c, is_transport c || is_composition c) m) end.
      { apply uses_bind.
        { eapply uses_weaken, createSMTPTransport_uses. by intros []. }
        intros transport.
        repeat (apply uses_bind; [apply uses_read | intros ?]).
        apply uses_bind.
        { eapply uses_weaken, buildEmail_uses. by intros []. }
        intros html. by repeat constructor. }
      apply (uses_trace _ w) in Hu. rewrite Forall_forall in Hu.
      by apply Hu in H. }
  destruct Hsame as (-> & -> & ->).
  unfold after at 1. simpl.
  destruct (truthy config) eqn:Ht; simpl; [|done].
  assert (Hget : ∀ p, get_prop config p = Returned (field config p))
    by (intros p; by destruct config).
  rewrite !Hget. reflexivity.
Qed.

(** C8: [sendEmail] opens the global database and asks the config store for
    the SMTP configuration of the scope given in its options. When the store
    resolves nothing for that query, the call fails with the message that no
    SMTP configuration was found; its run is the database handle and the
    lookup: no transport is created and nothing is sent. *)
Theorem sendEmail_without_configuration
    (K : constants) (w : world) (email purpose opts groupId db params config : value) :
  get_prop (default_param opts (VObj ∅)) "groupId" = Returned groupId →
  w (NewCouchDB (GLOBAL_DB K)) = Resolved db →
  params = VObj (if truthy groupId
                 then {[ "group" := groupId; "type" := SMTP K ]}
                 else {[ "type" := SMTP K ]}) →
  w (DetermineScopedConfig db params) = Resolved config →
  absent config →
  run w (sendEmail K email purpose opts)
    = ([Invoke (NewCouchDB (GLOBAL_DB K)) (Resolved db);
        Issue (DetermineScopedConfig db params);
        Settle (DetermineScopedConfig db params) (Resolved config)],
       Threw (Thrown (VStr "Unable to find SMTP configuration.")))
  ∧ Forall (λ c, is_transport c = false)
      (calls_of (trace_of w (sendEmail K email purpose opts))).
Proof.
  intros Hgroup Hdb -> Hconfig Habsent%absent_nullish%nullish_falsy.
  assert (Huser : ∃ user, get_prop (default_param opts (VObj ∅)) "user" = Returned user).
  { destruct (default_param opts (VObj ∅)); simpl in *; try done; by eexists. }
  destruct Huser as [user Huser].
  assert (Hrun : run w (sendEmail K email purpose opts)
    = ([Invoke (NewCouchDB (GLOBAL_DB K)) (Resolved db);
        Issue (DetermineScopedConfig db
                 (VObj (if truthy groupId
                        then {[ "group" := groupId; "type" := SMTP K ]}
                        else {[ "type" := SMTP K ]})));
        Settle (DetermineScopedConfig db
                  (VObj (if truthy groupId
                         then {[ "group" := groupId; "type" := SMTP K ]}
                         else {[ "type" := SMTP K ]}))) (Resolved config)],
       Threw (Thrown (VStr "Unable to find SMTP configuration.")))).
  { unfold sendEmail, read, getSmtpConfiguration.
    rewrite Hgroup, Huser, !ret_bind, !run_bind. simpl. rewrite Hdb. simpl.
    match goal with |- context [DetermineScopedConfig db ?q] =>
      replace q with (VObj (if truthy groupId
                            then {[ "group" := groupId; "type" := SMTP K ]}
                            else {[ "type" := SMTP K ]}))
        by (by destruct groupId) end.
    rewrite Hconfig. simpl. by rewrite Habsent. }
  split; [exact Hrun|].
  unfold trace_of. rewrite Hrun. simpl. by repeat constructor.
Qed.

Lemma sendEmail_without_configuration_witness :
  get_prop (default_param VUndefined (VObj ∅)) "groupId" = Returned VUndefined
  ∧ unconfigured (NewCouchDB (GLOBAL_DB upstream)) = Resolved (VStr "db")
  ∧ unconfigured sample_query = Resolved VUndefined
  ∧ absent VUndefined
  ∧ run unconfigured (sendEmail upstream alice (VStr "invitation") VUndefined)
    = ([Invoke (NewCouchDB (VStr "global-db")) (Resolved (VStr "db"));
        Issue sample_query; Settle sample_query (Resolved VUndefined)],
       Threw (Thrown (VStr "Unable to find SMTP configuration.")))
  ∧ Forall (λ c, is_transport c = false)
      (calls_of (trace_of unconfigured
                   (sendEmail upstream alice (VStr "invitation") VUndefined))).
Proof.
  assert (Habsent : absent VUndefined) by (by right).
  split; [reflexivity|]. split; [reflexivity|]. split; [reflexivity|].
  split; [exact Habsent|].
  exact (sendEmail_without_configuration upstream unconfigured alice (VStr "invitation")
           VUndefined VUndefined (VStr "db") (VObj {[ "type" := VStr "smtp" ]}) VUndefined
           eq_refl eq_refl eq_refl eq_refl Habsent).
Defined.

(** C10: when [sendEmail] has a configuration, the fourth event of its run is
    the creation of the transport, after the database handle and the lookup
    and before every call of the composer. So when the composition fails,
    for an unsupported purpose or a missing fragment or anything else, the
    transport exists already: the run is the construction followed by the
    failed composition, and the failure is the composer's. *)
Theorem sendEmail_transport_before_composition
    (K : constants) (w : world) (email purpose opts db params config : value) :
  Settle (DetermineScopedConfig db params) (Resolved config)
    ∈ trace_of w (sendEmail K email purpose opts) →
  truthy config = true →
  ∃ options user,
    get_prop (default_param opts (VObj ∅)) "user" = Returned user
    ∧ let construction :=
        [Invoke (NewCouchDB (GLOBAL_DB K)) (Resolved db);
         Issue (DetermineScopedConfig db params);
         Settle (DetermineScopedConfig db params) (Resolved config);
         Invoke (CreateTransport options) (w (CreateTransport options))] in
      let composition := trace_of w (buildEmail K purpose email user) in
      (∀ transport, w (CreateTransport options) = Resolved transport →
         ∃ submission,
           trace_of w (sendEmail K email purpose opts)
             = construction ++ composition ++ submission)
      ∧ (∀ transport e, w (CreateTransport options) = Resolved transport →
           result_of w (buildEmail K purpose email user) = Threw e →
           run w (sendEmail K email purpose opts) = (construction ++ composition, Threw e)).
Proof.
  intros (user & Huser & Hrun)%sendEmail_resolved Htruthy.
  rewrite Htruthy in Hrun. simpl in Hrun.
  destruct (createSMTPTransport_options config) as (options & Hcreate & _);
    [by destruct config|].
  exists (VObj options), user. split; [done|]. simpl.
  rewrite Hcreate in Hrun. simpl in Hrun. split.
  - intros transport Ht. rewrite Ht in Hrun |- *. simpl in Hrun.
    rewrite ?ret_bind, run_bind in Hrun. unfold trace_of. rewrite Hrun.
    destruct (run w (buildEmail K purpose email user)) as [tr [html|e]]; simpl.
    + by eexists.
    + exists []. by rewrite app_nil_r.
  - intros transport e Ht. rewrite Ht in Hrun |- *. simpl in Hrun.
    rewrite ?ret_bind, run_bind in Hrun. unfold result_of, trace_of. rewrite Hrun.
    destruct (run w (buildEmail K purpose email user)) as [tr [html|e']]; simpl; [done|].
    by intros [= ->].
Qed.

Lemma sendEmail_transport_before_composition_witness :
  Settle sample_query (Resolved sample_config)
    ∈ trace_of configured (sendEmail upstream alice (VStr "base") VUndefined)
  ∧ truthy sample_config = true
  ∧ ∃ options user,
      get_prop (default_param VUndefined (VObj ∅)) "user" = Returned user
      ∧ let construction :=
          [Invoke (NewCouchDB (GLOBAL_DB upstream)) (Resolved (VStr "db"));
           Issue sample_query;
           Settle sample_query (Resolved sample_config);
           Invoke (CreateTransport options) (configured (CreateTransport options))] in
        let composition :=
          trace_of configured (buildEmail upstream (VStr "base") alice user) in
        (∀ transport, configured (CreateTransport options) = Resolved transport →
           ∃ submission,
             trace_of configured (sendEmail upstream alice (VStr "base") VUndefined)
               = construction ++ composition ++ submission)
        ∧ (∀ transport e, configured (CreateTransport options) = Resolved transport →
             result_of configured (buildEmail upstream (VStr "base") alice user) = Threw e →
             run configured (sendEmail upstream alice (VStr "base") VUndefined)
               = (construction ++ composition, Threw e)).
Proof.
  assert (H : Settle sample_query (Resolved sample_config)
                ∈ trace_of configured (sendEmail upstream alice (VStr "base") VUndefined)).
  { apply (list_elem_of_lookup_2 _ 2%nat). vm_compute. reflexivity. }
  split; [exact H|]. split; [reflexivity|].
  exact (sendEmail_transport_before_composition upstream configured alice (VStr "base")
           VUndefined (VStr "db") (VObj {[ "type" := VStr "smtp" ]}) sample_config
           H eq_refl).
Defined.

(** C9: [verifyConfig] and [sendEmail] construct their transport by the same
    call with the same options, computed from the configuration alone: host,
    port, the secure flag or [false], auth, and a [tls] entry refusing no
    certificate exactly when [selfSigned] is set. That entry is part of the
    options of this one transport; [verifyConfig] calls the transport
    interface and nothing else, so it sets nothing for the process. *)
Theorem verifyConfig_same_transport
    (K : constants) (w : world) (email purpose opts db params config : value) :
  Settle (DetermineScopedConfig db params) (Resolved config)
    ∈ trace_of w (sendEmail K email purpose opts) →
  truthy config = true →
  ∃ options : gmap string value,
    created (trace_of w (sendEmail K email purpose opts)) = [VObj options]
    ∧ created (trace_of w (verifyConfig config)) = [VObj options]
    ∧ options !! "host" = Some (field config "host")
    ∧ options !! "port" = Some (field config "port")
    ∧ options !! "secure" = Some (js_or (field config "secure") (VBool false))
    ∧ options !! "auth" = Some (field config "auth")
    ∧ options !! "tls" = (if truthy (field config "selfSigned")
                          then Some (VObj {[ "rejectUnauthorized" := VBool false ]})
                          else None)
    ∧ Forall (λ c, is_transport c = true) (calls_of (trace_of w (verifyConfig config))).
Proof.
  intros (user & _ & Hrun)%sendEmail_resolved Htruthy.
  rewrite Htruthy in Hrun. simpl in Hrun.
  destruct (createSMTPTransport_options config) as (options & Hcreate & Hoptions);
    [by destruct config|].
  exists options. split_and!; try apply Hoptions.
  - unfold trace_of at 1. rewrite Hrun, Hcreate. simpl.
    assert (Hnone : ∀ m : prog value,
              uses (λ c, is_composition c
                         || match c with SendMail _ _ => true | _ => false end) m →
              created (trace_of w m) = []).
    { intros m Hm%(uses_trace _ w). apply created_none.
      eapply Forall_impl; [exact Hm|]. by intros [[]|[]|[]]. }
    destruct (w (CreateTransport (VObj options))) as [transport|]; simpl; [|done].
    rewrite ?ret_bind. f_equal. apply Hnone.
    apply uses_bind.
    { eapply uses_weaken, buildEmail_uses. intros c ->. done. }
    intros html. by repeat constructor.
  - unfold trace_of, verifyConfig. rewrite Hcreate. simpl.
    destruct (w (CreateTransport (VObj options))) as [transport|]; simpl; [|done].
    by destruct (w (Verify transport)).
  - apply calls_of_Forall, uses_trace. unfold verifyConfig.
    apply uses_bind; [apply createSMTPTransport_uses|]. intros transport.
    by repeat constructor.
Qed.

Lemma verifyConfig_same_transport_witness :
  Settle sample_query (Resolved sample_config)
    ∈ trace_of configured (sendEmail upstream alice (VStr "welcome") VUndefined)
  ∧ truthy sample_config = true
  ∧ ∃ options : gmap string value,
      created (trace_of configured (sendEmail upstream alice (VStr "welcome") VUndefined))
        = [VObj options]
      ∧ created (trace_of configured (verifyConfig sample_config)) = [VObj options]
      ∧ options !! "host" = Some (field sample_config "host")
      ∧ options !! "port" = Some (field sample_config "port")
      ∧ options !! "secure" = Some (js_or (field sample_config "secure") (VBool false))
      ∧ options !! "auth" = Some (field sample_config "auth")
      ∧ options !! "tls" = (if truthy (field sample_config "selfSigned")
                            then Some (VObj {[ "rejectUnauthorized" := VBool false ]})
                            else None)
      ∧ Forall (λ c, is_transport c = true)
          (calls_of (trace_of configured (verifyConfig sample_config))).
Proof.
  assert (H : Settle sample_query (Resolved sample_config)
                ∈ trace_of configured (sendEmail upstream alice (VStr "welcome") VUndefined)).
  { apply (list_elem_of_lookup_2 _ 2%nat). vm_compute. reflexivity. }
  split; [exact H|]. split; [reflexivity|].
  exact (verifyConfig_same_transport upstream configured alice (VStr "welcome")
           VUndefined (VStr "db") (VObj {[ "type" := VStr "smtp" ]}) sample_config
           H eq_refl).
Defined.

(** ** Further properties of the dispatcher *)

(** The run of [sendEmail] once the store has resolved a configuration that
    passes the guard: construction, composition, submission. *)
Lemma sendEmail_configured_run
    (K : constants) (w : world) (email purpose opts db params config : value) :
  Settle (DetermineScopedConfig db params) (Resolved config)
    ∈ trace_of w (sendEmail K email purpose opts) →
  truthy config = true →
  ∃ (options : gmap string value) (user : value),
    get_prop (default_param opts (VObj ∅)) "user" = Returned user
    ∧ createSMTPTransport config = Call (CreateTransport (VObj options)) Ret
    ∧ run w (sendEmail K email purpose opts)
      = after [Invoke (NewCouchDB (GLOBAL_DB K)) (Resolved db);
               Issue (DetermineScopedConfig db params);
               Settle (DetermineScopedConfig db params) (Resolved config)]
          match w (CreateTransport (VObj options)) with
          | Rejected e =>
              ([Invoke (CreateTransport (VObj options)) (Rejected e)], Threw (Thrown e))
          | Resolved transport =>
              after [Invoke (CreateTransport (VObj options)) (Resolved transport)]
                match result_of w (buildEmail K purpose email user) with
                | Threw e => (trace_of w (buildEmail K purpose email user), Threw e)
                | Returned html =>
                    after (trace_of w (buildEmail K purpose email user))
                      (run w (Await (SendMail transport
                                (VObj {[ "from" := field config "from";
                                         "subject" := field config "subject";
                                         "to" := email; "html" := html ]})) Ret))
                end
          end.
Proof.
  intros (user & Huser & Hrun)%sendEmail_resolved Htruthy.
  rewrite Htruthy in Hrun. simpl in Hrun.
  destruct (createSMTPTransport_options config) as (options & Hcreate & _);
    [by destruct config|].
  exists options, user. split; [done|]. split; [done|].
  rewrite Hrun, Hcreate. f_equal. simpl.
  destruct (w (CreateTransport (VObj options))) as [transport|]; [|done].
  f_equal. rewrite ?ret_bind, run_bind. unfold result_of, trace_of.
  by destruct (run w (buildEmail K purpose email user)) as [tr [html|e]].
Qed.

(** Events of the composer are no transport events. *)
Lemma buildEmail_no_transport_event
    (K : constants) (w : world) (purpose email user : value) (e : event) :
  e ∈ trace_of w (buildEmail K purpose email user) → is_transport (call_of e) = false.
Proof.
  intros He.
  pose proof (uses_trace _ w _ (buildEmail_uses K purpose email user)) as Hu.
  rewrite Forall_forall in Hu. apply Hu in He.
  by destruct e as [[]|[]|[]].
Qed.

(** How a run of [sendEmail] begins: the options cannot be read; or the
    database handle fails; or the lookup is rejected; or it resolves. *)
Lemma sendEmail_begins (K : constants) (w : world) (email purpose opts : value) :
  (∃ e, run w (sendEmail K email purpose opts) = ([], Threw e))
  ∨ (∃ e, run w (sendEmail K email purpose opts)
          = ([Invoke (NewCouchDB (GLOBAL_DB K)) (Rejected e)], Threw (Thrown e)))
  ∨ (∃ db params e,
       w (DetermineScopedConfig db params) = Rejected e
       ∧ run w (sendEmail K email purpose opts)
         = ([Invoke (NewCouchDB (GLOBAL_DB K)) (Resolved db);
             Issue (DetermineScopedConfig db params);
             Settle (DetermineScopedConfig db params) (Rejected e)], Threw (Thrown e)))
  ∨ (∃ db params config,
       w (DetermineScopedConfig db params) = Resolved config
       ∧ Settle (DetermineScopedConfig db params) (Resolved config)
           ∈ trace_of w (sendEmail K email purpose opts)).
Proof.
  unfold trace_of, sendEmail. set (opts' := default_param opts (VObj ∅)).
  unfold read.
  destruct (get_prop opts' "groupId") as [groupId|]; [|left; by eexists].
  destruct (get_prop opts' "user") as [user|]; [|left; by eexists].
  rewrite !ret_bind. unfold getSmtpConfiguration.
  rewrite !run_bind. simpl.
  destruct (w (NewCouchDB (GLOBAL_DB K))) as [db|]; simpl; [|right; left; by eexists].
  match goal with |- context [w ?c] => destruct (w c) as [config|] eqn:Hw end; simpl.
  - do 3 right. eexists db, _, config. split; [exact Hw|].
    rewrite !elem_of_cons. right; right; left. reflexivity.
  - right; right; left. eexists db, _, _. split; [exact Hw|]. reflexivity.
Qed.

(** The lookup appears once in a run of [sendEmail]: a settlement in the
    trace is the one the run begins with. *)
Lemma sendEmail_lookup_outcome
    (K : constants) (w : world) (email purpose opts db params : value) (o : outcome) :
  Settle (DetermineScopedConfig db params) o ∈ trace_of w (sendEmail K email purpose opts) →
  w (DetermineScopedConfig db params) = o
  ∧ ∀ e, o = Rejected e →
      run w (sendEmail K email purpose opts)
        = ([Invoke (NewCouchDB (GLOBAL_DB K)) (Resolved db);
            Issue (DetermineScopedConfig db params);
            Settle (DetermineScopedConfig db params) (Rejected e)], Threw (Thrown e)).
Proof.
  intros H.
  destruct (sendEmail_begins K w email purpose opts)
    as [[e Hrun]|[[e Hrun]|[(db' & q & e & Hw & Hrun)|(db' & q & config & Hw & Hin)]]].
  - unfold trace_of in H. rewrite Hrun in H. simpl in H. in_cases H.
  - unfold trace_of in H. rewrite Hrun in H. simpl in H. in_cases H.
  - unfold trace_of in H. rewrite Hrun in H. simpl in H. in_cases H.
    injection H as -> -> ->. split; [done|]. by intros ? [= ->].
  - apply sendEmail_resolved in Hin as (user & _ & Hrun).
    unfold trace_of in H. rewrite Hrun in H. simpl in H. in_cases H.
    + injection H as -> -> ->. split; [done|]. intros ? [=].
    + exfalso. destruct (truthy config); simpl in H; [|in_cases H].
      match type of H with _ ∈ (run w ?m).1 =>
        assert (Hu : uses (λ c, is_transport c || is_composition c) m) end.
      { apply uses_bind.
        { eapply uses_weaken, createSMTPTransport_uses. by intros []. }
        intros transport. apply uses_bind.
        { eapply uses_weaken, buildEmail_uses. by intros []. }
        intros html. by repeat constructor. }
      apply (uses_trace _ w) in Hu. rewrite Forall_forall in Hu.
      by apply Hu in H.
Qed.

Lemma sent_app (t1 t2 : list event) : sent (t1 ++ t2) = sent t1 ++ sent t2.
Proof.
  induction t1 as [|e t1 IH]; [done|].
  destruct e as [c o|c|c o]; simpl; try done. destruct c; simpl; by rewrite ?IH.
Qed.

Lemma created_app (t1 t2 : list event) : created (t1 ++ t2) = created t1 ++ created t2.
Proof.
  induction t1 as [|e t1 IH]; [done|].
  destruct e as [c o|c|c o]; simpl; try done. destruct c; simpl; by rewrite ?IH.
Qed.

Lemma buildEmail_sends_nothing (K : constants) (w : world) (purpose email user : value) :
  sent (trace_of w (buildEmail K purpose email user)) = [].
Proof.
  pose proof (uses_trace _ w _ (buildEmail_uses K purpose email user)) as Hu.
  induction Hu as [|e tr He _ IH]; [done|].
  destruct e as [c o|c|c o]; simpl; try done. by destruct c.
Qed.

(** X1: When the store resolved a configuration, the transport was created and
    the composer returned a document, [sendEmail] submits one message over
    that transport: [from] and [subject] of the configuration, [to] the
    email argument, [html] the document. Its run is the construction, the
    composition and this submission, and its result is what the transport
    answers: the receipt, or the transport's failure as it is. *)
Theorem sendEmail_delivers
    (K : constants) (w : world)
    (email purpose opts db params config options transport html : value) :
  Settle (DetermineScopedConfig db params) (Resolved config)
    ∈ trace_of w (sendEmail K email purpose opts) →
  Invoke (CreateTransport options) (Resolved transport)
    ∈ trace_of w (sendEmail K email purpose opts) →
  result_of w (buildEmail K purpose email (field (default_param opts (VObj ∅)) "user"))
    = Returned html →
  let user := field (default_param opts (VObj ∅)) "user" in
  let message := VObj {[ "from" := field config "from";
                         "subject" := field config "subject";
                         "to" := email; "html" := html ]} in
  run w (sendEmail K email purpose opts)
    = ([Invoke (NewCouchDB (GLOBAL_DB K)) (Resolved db);
        Issue (DetermineScopedConfig db params);
        Settle (DetermineScopedConfig db params) (Resolved config);
        Invoke (CreateTransport options) (Resolved transport)]
         ++ trace_of w (buildEmail K purpose email user)
         ++ [Issue (SendMail transport message);
             Settle (SendMail transport message) (w (SendMail transport message))],
       match w (SendMail transport message) with
       | Resolved receipt => Returned receipt
       | Rejected e => Threw (Thrown e)
       end).
Proof.
  intros Hconfig Hcreated Hhtml user message. fold user in Hhtml.
  destruct (truthy config) eqn:Htruthy.
  2:{ apply sendEmail_resolved in Hconfig as (u & _ & Hrun).
      unfold trace_of in Hcreated. rewrite Hrun, Htruthy in Hcreated.
      simpl in Hcreated. in_cases Hcreated. }
  destruct (sendEmail_configured_run _ _ _ _ _ _ _ _ Hconfig Htruthy)
    as (options0 & u & Hu & _ & Hrun).
  assert (user = u) as <- by (subst user; unfold field; by rewrite Hu).
  unfold trace_of in Hcreated at 1. rewrite Hrun in Hcreated |- *. clear Hrun.
  destruct (w (CreateTransport (VObj options0))) as [transport0|] eqn:Ht;
    [|simpl in Hcreated; in_cases Hcreated].
  rewrite Hhtml in Hcreated |- *.
  assert (options = VObj options0 ∧ transport = transport0) as [-> ->].
  { simpl in Hcreated.
    destruct (w (SendMail transport0 _)); simpl in Hcreated; in_cases Hcreated;
      try (by injection Hcreated as -> ->);
      by apply buildEmail_no_transport_event in Hcreated. }
  simpl. fold message. destruct (w (SendMail transport0 message)); simpl;
    by rewrite ?app_nil_r.
Qed.

Lemma sendEmail_delivers_witness :
  Settle sample_query (Resolved sample_config)
    ∈ trace_of configured (sendEmail upstream alice (VStr "invitation") VUndefined)
  ∧ Invoke (CreateTransport sample_options) (Resolved (VStr "transport"))
    ∈ trace_of configured (sendEmail upstream alice (VStr "invitation") VUndefined)
  ∧ result_of configured (buildEmail upstream (VStr "invitation") alice VUndefined)
    = Returned sample_invitation
  ∧ result_of configured (sendEmail upstream alice (VStr "invitation") VUndefined)
    = Returned (VStr "250 OK")
  ∧ sent (trace_of configured (sendEmail upstream alice (VStr "invitation") VUndefined))
    = [(VStr "transport", sample_message)].
Proof.
  assert (H1 : Settle sample_query (Resolved sample_config)
      ∈ trace_of configured (sendEmail upstream alice (VStr "invitation") VUndefined))
    by (apply (list_elem_of_lookup_2 _ 2%nat); vm_compute; reflexivity).
  assert (H2 : Invoke (CreateTransport sample_options) (Resolved (VStr "transport"))
      ∈ trace_of configured (sendEmail upstream alice (VStr "invitation") VUndefined))
    by (apply (list_elem_of_lookup_2 _ 3%nat); vm_compute; reflexivity).
  assert (H3 : result_of configured
                 (buildEmail upstream (VStr "invitation") alice
                    (field (default_param VUndefined (VObj ∅)) "user"))
               = Returned sample_invitation) by (vm_compute; reflexivity).
  split; [exact H1|]. split; [exact H2|]. split; [exact H3|].
  unfold result_of, trace_of.
  rewrite (sendEmail_delivers upstream configured alice (VStr "invitation") VUndefined
             (VStr "db") (VObj {[ "type" := VStr "smtp" ]}) sample_config
             sample_options (VStr "transport") sample_invitation H1 H2 H3).
  split; [reflexivity | vm_compute; reflexivity].
Defined.

(** X2: Whatever [sendEmail] submits is a composed email: a submission in its
    run means that the store resolved a configuration passing the guard and
    that the composer returned a document; the message is made of the
    configuration's [from] and [subject], the email argument and that
    document, and it is the only message of the run. *)
Theorem sendEmail_sends_only_composed
    (K : constants) (w : world) (email purpose opts transport message : value) :
  Issue (SendMail transport message) ∈ trace_of w (sendEmail K email purpose opts) →
  ∃ db params config html,
    w (DetermineScopedConfig db params) = Resolved config
    ∧ truthy config = true
    ∧ result_of w (buildEmail K purpose email (field (default_param opts (VObj ∅)) "user"))
      = Returned html
    ∧ message = VObj {[ "from" := field config "from";
                        "subject" := field config "subject";
                        "to" := email; "html" := html ]}
    ∧ sent (trace_of w (sendEmail K email purpose opts)) = [(transport, message)].
Proof.
  intros Hsent.
  destruct (sendEmail_begins K w email purpose opts)
    as [[e Hrun]|[[e Hrun]|[(db & q & e & Hw & Hrun)|(db & q & config & Hw & Hin)]]];
    try (unfold trace_of in Hsent; rewrite Hrun in Hsent; simpl in Hsent;
         by in_cases Hsent).
  exists db, q, config.
  destruct (truthy config) eqn:Htruthy.
  2:{ apply sendEmail_resolved in Hin as (u & _ & Hrun).
      unfold trace_of in Hsent. rewrite Hrun, Htruthy in Hsent.
      simpl in Hsent. in_cases Hsent. }
  destruct (sendEmail_configured_run _ _ _ _ _ _ _ _ Hin Htruthy)
    as (options & u & Hu & _ & Hrun).
  assert (field (default_param opts (VObj ∅)) "user" = u) as ->
    by (unfold field; by rewrite Hu).
  unfold trace_of in Hsent |- * at 1. rewrite Hrun in Hsent |- *. clear Hrun.
  destruct (w (CreateTransport (VObj options))) as [transport0|] eqn:Ht;
    [|simpl in Hsent; in_cases Hsent].
  pose proof (buildEmail_sends_nothing K w purpose email u) as Hnone.
  destruct (result_of w (buildEmail K purpose email u)) as [html|e] eqn:Hhtml.
  - exists html. simpl in Hsent |- *. rewrite sent_app, Hnone. simpl.
    match goal with |- context [w (SendMail transport0 ?m)] => set (msg := m) in * end.
    assert (transport = transport0 ∧ message = msg) as [-> ->].
    { destruct (w (SendMail transport0 msg)); simpl in Hsent; in_cases Hsent;
        try (by injection Hsent as -> ->);
        by apply buildEmail_no_transport_event in Hsent. }
    split_and!; try done. by destruct (w (SendMail transport0 msg)).
  - simpl in Hsent. in_cases Hsent.
    by apply buildEmail_no_transport_event in Hsent.
Qed.

Lemma sendEmail_sends_only_composed_witness :
  Issue (SendMail (VStr "transport") sample_message)
    ∈ trace_of configured (sendEmail upstream alice (VStr "invitation") VUndefined)
  ∧ ∃ db params config html,
      configured (DetermineScopedConfig db params) = Resolved config
      ∧ truthy config = true
      ∧ result_of configured
          (buildEmail upstream (VStr "invitation") alice
             (field (default_param VUndefined (VObj ∅)) "user"))
        = Returned html
      ∧ sample_message = VObj {[ "from" := field config "from";
                                 "subject" := field config "subject";
                                 "to" := alice; "html" := html ]}
      ∧ sent (trace_of configured (sendEmail upstream alice (VStr "invitation") VUndefined))
        = [(VStr "transport", sample_message)].
Proof.
  assert (H : Issue (SendMail (VStr "transport") sample_message)
      ∈ trace_of configured (sendEmail upstream alice (VStr "invitation") VUndefined))
    by (apply (list_elem_of_lookup_2 _ 20%nat); vm_compute; reflexivity).
  split; [exact H|].
  exact (sendEmail_sends_only_composed upstream configured alice (VStr "invitation")
           VUndefined (VStr "transport") sample_message H).
Defined.

(** X3: A failure of the config store is not taken for a missing configuration:
    when the lookup is rejected, [sendEmail] fails with the store's own
    error after the lookup, and creates no transport. *)
Theorem sendEmail_store_failure
    (K : constants) (w : world) (email purpose opts db params e : value) :
  Settle (DetermineScopedConfig db params) (Rejected e)
    ∈ trace_of w (sendEmail K email purpose opts) →
  run w (sendEmail K email purpose opts)
    = ([Invoke (NewCouchDB (GLOBAL_DB K)) (Resolved db);
        Issue (DetermineScopedConfig db params);
        Settle (DetermineScopedConfig db params) (Rejected e)], Threw (Thrown e))
  ∧ created (trace_of w (sendEmail K email purpose opts)) = [].
Proof.
  intros [_ Hrun]%sendEmail_lookup_outcome. specialize (Hrun e eq_refl).
  split; [exact Hrun|]. unfold trace_of. by rewrite Hrun.
Qed.

Lemma sendEmail_store_failure_witness :
  Settle sample_query (Rejected (VStr "database unreachable"))
    ∈ trace_of storeless (sendEmail upstream alice (VStr "invitation") VUndefined)
  ∧ run storeless (sendEmail upstream alice (VStr "invitation") VUndefined)
    = ([Invoke (NewCouchDB (VStr "global-db")) (Resolved (VStr "db"));
        Issue sample_query;
        Settle sample_query (Rejected (VStr "database unreachable"))],
       Threw (Thrown (VStr "database unreachable")))
  ∧ created (trace_of storeless (sendEmail upstream alice (VStr "invitation") VUndefined))
    = [].
Proof.
  assert (H : Settle sample_query (Rejected (VStr "database unreachable"))
      ∈ trace_of storeless (sendEmail upstream alice (VStr "invitation") VUndefined))
    by (apply (list_elem_of_lookup_2 _ 2%nat); vm_compute; reflexivity).
  split; [exact H|].
  exact (sendEmail_store_failure upstream storeless alice (VStr "invitation") VUndefined
           (VStr "db") (VObj {[ "type" := VStr "smtp" ]}) (VStr "database unreachable") H).
Defined.

(** X4: [isEmailConfigured] for a scope and [sendEmail] with that scope among
    its options resolve the configuration by the same calls: the run of the
    check is the beginning of the run of the dispatch. When the check
    answers [false], the dispatch stops there with the message that no
    configuration was found; when the check fails, the dispatch fails
    there with the same error. *)
Theorem isEmailConfigured_agrees_with_sendEmail
    (K : constants) (w : world) (email purpose opts groupId : value) :
  get_prop (default_param opts (VObj ∅)) "groupId" = Returned groupId →
  trace_of w (isEmailConfigured K groupId) `prefix_of` trace_of w (sendEmail K email purpose opts)
  ∧ (result_of w (isEmailConfigured K groupId) = Returned (VBool false) →
     run w (sendEmail K email purpose opts)
       = (trace_of w (isEmailConfigured K groupId),
          Threw (Thrown (VStr "Unable to find SMTP configuration."))))
  ∧ (∀ e, result_of w (isEmailConfigured K groupId) = Threw e →
     run w (sendEmail K email purpose opts)
       = (trace_of w (isEmailConfigured K groupId), Threw e)).
Proof.
  intros Hgroup.
  assert (Huser : ∃ user, get_prop (default_param opts (VObj ∅)) "user" = Returned user).
  { destruct (default_param opts (VObj ∅)); simpl in *; try done; by eexists. }
  destruct Huser as [user Huser].
  unfold trace_of, result_of, sendEmail, isEmailConfigured, read.
  rewrite Hgroup, Huser, !ret_bind. unfold getSmtpConfiguration.
  assert (Hd : default_param (default_param groupId VNull) VNull
               = default_param groupId VNull) by by destruct groupId.
  rewrite Hd, !run_bind. simpl.
  destruct (w (NewCouchDB (GLOBAL_DB K))) as [db|]; simpl.
  2:{ split_and!; [done|done|]. by intros e [= <-]. }
  match goal with |- context [w ?c] => destruct (w c) as [config|] eqn:Hw end; simpl.
  2:{ split_and!; [done|done|]. by intros e [= <-]. }
  split_and!.
  - by eexists.
  - intros [= Hn]. apply negb_false_iff, nullish_falsy in Hn. by rewrite Hn.
  - done.
Qed.

Lemma isEmailConfigured_agrees_with_sendEmail_witness :
  get_prop (default_param VUndefined (VObj ∅)) "groupId" = Returned VUndefined
  ∧ result_of unconfigured (isEmailConfigured upstream VUndefined) = Returned (VBool false)
  ∧ run unconfigured (sendEmail upstream alice (VStr "welcome") VUndefined)
    = (trace_of unconfigured (isEmailConfigured upstream VUndefined),
       Threw (Thrown (VStr "Unable to find SMTP configuration."))).
Proof.
  split; [reflexivity|]. split; [reflexivity|].
  exact (proj1 (proj2 (isEmailConfigured_agrees_with_sendEmail upstream unconfigured
                         alice (VStr "welcome") VUndefined VUndefined eq_refl)) eq_refl).
Defined.

(** X5: [sendEmail] reads its options through [groupId] and [user] only: two
    option values with the same two entries give the same program. In
    particular an omitted bag is an empty one, and other entries of the bag
    are ignored. *)
Theorem sendEmail_reads_two_options
    (K : constants) (email purpose opts1 opts2 : value) :
  get_prop (default_param opts1 (VObj ∅)) "groupId"
    = get_prop (default_param opts2 (VObj ∅)) "groupId" →
  get_prop (default_param opts1 (VObj ∅)) "user"
    = get_prop (default_param opts2 (VObj ∅)) "user" →
  sendEmail K email purpose opts1 = sendEmail K email purpose opts2.
Proof. intros Hg Hu. unfold sendEmail, read. by rewrite Hg, Hu. Qed.

Lemma sendEmail_reads_two_options_witness :
  sendEmail upstream alice (VStr "welcome") VUndefined
  = sendEmail upstream alice (VStr "welcome") (VObj {[ "cc" := VStr "bob@example.com" ]}).
Proof.
  apply (sendEmail_reads_two_options upstream alice (VStr "welcome") VUndefined
           (VObj {[ "cc" := VStr "bob@example.com" ]})); reflexivity.
Defined.

(** X6: [sendEmail] calls nothing at all exactly when its options are [null]:
    then it fails on the destructuring, the default of the parameter
    standing for a missing argument only. With any other options its first
    call opens the global database. *)
Theorem sendEmail_first_call (K : constants) (w : world) (email purpose opts : value) :
  (opts = VNull →
   run w (sendEmail K email purpose opts) = ([], Threw (TypeError VNull "groupId")))
  ∧ (opts ≠ VNull →
     head (calls_of (trace_of w (sendEmail K email purpose opts)))
       = Some (NewCouchDB (GLOBAL_DB K))).
Proof.
  split; [by intros ->|]. intros Hopts.
  unfold trace_of, sendEmail, getSmtpConfiguration, read, mbind, prog_mbind.
  destruct opts; try done; simpl; by destruct (w (NewCouchDB (GLOBAL_DB K))).
Qed.

Lemma sendEmail_first_call_witness :
  run configured (sendEmail upstream alice (VStr "welcome") VNull)
    = ([], Threw (TypeError VNull "groupId"))
  ∧ head (calls_of (trace_of configured (sendEmail upstream alice (VStr "welcome") (VNum 7))))
    = Some (NewCouchDB (VStr "global-db")).
Proof.
  split.
  - apply (sendEmail_first_call upstream configured alice (VStr "welcome") VNull).
    reflexivity.
  - apply (sendEmail_first_call upstream configured alice (VStr "welcome") (VNum 7)).
    discriminate.
Defined.

(** ** Further properties of the verifier and of the construction *)

(** X8: on a configuration that is neither [null] nor [undefined],
    [verifyConfig] constructs the transport and then calls its [verify]: the
    run is these two calls. It has no value to return: when the handshake
    resolves, to whatever value, the result is [undefined]; when it is
    rejected, the rejection is the failure of [verifyConfig], unchanged; and
    when the construction fails, [verify] is not called. *)
Theorem verifyConfig_result (w : world) (config : value) :
  nullish config = false →
  ∃ options,
    createSMTPTransport config = Call (CreateTransport options) Ret
    ∧ (∀ transport, w (CreateTransport options) = Resolved transport →
       run w (verifyConfig config)
         = ([Invoke (CreateTransport options) (Resolved transport);
             Issue (Verify transport);
             Settle (Verify transport) (w (Verify transport))],
            match w (Verify transport) with
            | Resolved _ => Returned VUndefined
            | Rejected e => Threw (Thrown e)
            end))
    ∧ (∀ e, w (CreateTransport options) = Rejected e →
       run w (verifyConfig config)
         = ([Invoke (CreateTransport options) (Rejected e)], Threw (Thrown e))).
Proof.
  intros Hn.
  destruct (createSMTPTransport_options config Hn) as (options & Hcreate & _).
  exists (VObj options). split; [exact Hcreate|].
  unfold verifyConfig. rewrite Hcreate. simpl. split.
  - intros transport ->. simpl. by destruct (w (Verify transport)).
  - by intros e ->.
Qed.

Lemma verifyConfig_result_witness :
  nullish sample_config = false
  ∧ ∃ options,
      createSMTPTransport sample_config = Call (CreateTransport options) Ret
      ∧ (∀ transport, unverifiable (CreateTransport options) = Resolved transport →
         run unverifiable (verifyConfig sample_config)
           = ([Invoke (CreateTransport options) (Resolved transport);
               Issue (Verify transport);
               Settle (Verify transport) (unverifiable (Verify transport))],
              match unverifiable (Verify transport) with
              | Resolved _ => Returned VUndefined
              | Rejected e => Threw (Thrown e)
              end))
      ∧ (∀ e, unverifiable (CreateTransport options) = Rejected e →
         run unverifiable (verifyConfig sample_config)
           = ([Invoke (CreateTransport options) (Rejected e)], Threw (Thrown e))).
Proof.
  split; [reflexivity|]. exact (verifyConfig_result unverifiable sample_config eq_refl).
Defined.

(** X9: On a configuration that is [null] or [undefined], the construction fails
    on its first read, and [verifyConfig] with it, before any transport is
    created. *)
Theorem verifyConfig_without_configuration (w : world) (config : value) :
  absent config →
  run w (createSMTPTransport config) = ([], Threw (TypeError config "port"))
  ∧ run w (verifyConfig config) = ([], Threw (TypeError config "port")).
Proof. by intros [-> | ->]. Qed.

Lemma verifyConfig_without_configuration_witness :
  absent VNull
  ∧ run configured (createSMTPTransport VNull) = ([], Threw (TypeError VNull "port"))
  ∧ run configured (verifyConfig VNull) = ([], Threw (TypeError VNull "port")).
Proof.
  assert (H : absent VNull) by (by left).
  split; [exact H|]. exact (verifyConfig_without_configuration configured VNull H).
Defined.

(** X10: The options handed to the transport library have the entries [port],
    [host], [secure] and [auth], and [tls] when [selfSigned] is set, and no
    other: nothing else of the configuration ([from], [subject],
    [selfSigned] itself) reaches the library. The [secure] entry is the
    configuration's when that is truthy, and the boolean [false] otherwise. *)
Theorem createSMTPTransport_entries (config : value) :
  nullish config = false →
  ∃ options : gmap string value,
    createSMTPTransport config = Call (CreateTransport (VObj options)) Ret
    ∧ dom options
      = {[ "port"; "host"; "secure"; "auth" ]}
          ∪ (if truthy (field config "selfSigned") then {[ "tls" ]} else ∅)
    ∧ options !! "secure"
      = Some (if truthy (field config "secure") then field config "secure" else VBool false).
Proof.
  intros Hconfig.
  assert (Hget : ∀ p, read config p = Ret (field config p))
    by (intros p; by destruct config).
  unfold createSMTPTransport. rewrite !Hget.
  eexists. split; [reflexivity|].
  destruct (truthy (field config "selfSigned")); split;
    rewrite ?dom_insert_L, ?dom_singleton_L, ?dom_empty_L; try set_solver;
    by simplify_map_eq.
Qed.

Lemma createSMTPTransport_entries_witness :
  nullish sample_config = false
  ∧ ∃ options : gmap string value,
      createSMTPTransport sample_config = Call (CreateTransport (VObj options)) Ret
      ∧ dom options
        = {[ "port"; "host"; "secure"; "auth" ]}
            ∪ (if truthy (field sample_config "selfSigned") then {[ "tls" ]} else ∅)
      ∧ options !! "secure"
        = Some (if truthy (field sample_config "secure")
                then field sample_config "secure" else VBool false).
Proof.
  split; [reflexivity|]. exact (createSMTPTransport_entries sample_config eq_refl).
Defined.

(** ** Further properties of the resolver and of the composer *)

(** X11: The scope of a lookup goes into the query as its group when it is
    truthy, and not at all when it is falsy: undefined, [null], the empty
    string, zero and [false] all ask for the global configuration, and
    [isEmailConfigured] cannot tell them apart. *)
Theorem scope_query (K : constants) (db groupId : value) :
  getSmtpConfiguration K db groupId
    = Await (DetermineScopedConfig db
               (VObj (if truthy groupId
                      then {[ "group" := groupId; "type" := SMTP K ]}
                      else {[ "type" := SMTP K ]}))) Ret
  ∧ (truthy groupId = false → isEmailConfigured K groupId = isEmailConfigured K VNull).
Proof.
  unfold isEmailConfigured, getSmtpConfiguration. split.
  - by destruct groupId.
  - intros Hfalsy. destruct groupId as [| |[]|n|s|]; simpl in *; try done.
    + apply negb_false_iff, Z.eqb_eq in Hfalsy as ->. done.
    + apply negb_false_iff, String.eqb_eq in Hfalsy as ->. done.
Qed.

Lemma scope_query_witness :
  truthy (VStr "") = false
  ∧ isEmailConfigured upstream (VStr "") = isEmailConfigured upstream VNull.
Proof.
  split; [reflexivity|].
  apply (scope_query upstream VNull (VStr "")). reflexivity.
Defined.

(** X12: The composer stays within its collaborators: whatever the purpose and
    the answers, it calls the template store, the code issuer, the settings
    context and the substitution engine, and never the database, the config
    store or the transport. *)
Theorem buildEmail_calls_composition_only
    (K : constants) (w : world) (purpose email user : value) :
  Forall (λ c, is_composition c = true ∧ is_transport c = false)
    (calls_of (trace_of w (buildEmail K purpose email user))).
Proof.
  pose proof (calls_of_Forall _ _ _ (uses_trace _ w _ (buildEmail_uses K purpose email user)))
    as Hu.
  eapply Forall_impl; [exact Hu|]. by intros [].
Qed.

(** X13: A composition looks up three fragments and no more: for a full purpose
    the template lookups of a run are the base, the styles and the purpose's
    own fragment of the email type, in this order, whatever happens next. *)
Theorem buildEmail_three_lookups
    (K : constants) (w : world) (purpose email user : value) :
  full_purpose K purpose →
  List.filter is_template_lookup (calls_of (trace_of w (buildEmail K purpose email user)))
    = [GetTemplateByPurpose (TYPE K) (VStr (BASE K));
       GetTemplateByPurpose (TYPE K) (VStr (STYLES K));
       GetTemplateByPurpose (TYPE K) purpose].
Proof.
  intros Hfull%indexOf_full_purpose.
  unfold trace_of, buildEmail. rewrite Hfull.
  unfold getLinkCode, read, mbind, prog_mbind. crunch; done.
Qed.

Lemma buildEmail_three_lookups_witness :
  full_purpose upstream (VStr "welcome")
  ∧ List.filter is_template_lookup
      (calls_of (trace_of bodiless (buildEmail upstream (VStr "welcome") alice VUndefined)))
    = [GetTemplateByPurpose (VStr "email") (VStr "base");
       GetTemplateByPurpose (VStr "email") (VStr "styles");
       GetTemplateByPurpose (VStr "email") (VStr "welcome")].
Proof.
  assert (H : full_purpose upstream (VStr "welcome"))
    by (apply indexOf_full_purpose; reflexivity).
  split; [exact H|].
  exact (buildEmail_three_lookups upstream bodiless (VStr "welcome") alice VUndefined H).
Defined.

(** X14: A purpose that is neither PASSWORD_RECOVERY nor INVITATION needs no
    code: the composer never calls the code issuer for it, and asks for the
    settings context with [null] for the code. *)
Theorem buildEmail_without_code
    (K : constants) (w : world) (purpose email user : value) :
  purpose ≠ VStr (PASSWORD_RECOVERY K) →
  purpose ≠ VStr (INVITATION K) →
  Forall (λ c, is_link_code c = false
               ∧ (is_settings_context c = true →
                  c = GetSettingsTemplateContext purpose VNull))
    (calls_of (trace_of w (buildEmail K purpose email user))).
Proof.
  intros H1%strict_eq_str_false H2%strict_eq_str_false.
  unfold trace_of, buildEmail, getLinkCode. rewrite H1, H2.
  unfold read, mbind, prog_mbind. crunch; repeat constructor; done.
Qed.

Lemma buildEmail_without_code_witness :
  VStr "welcome" ≠ VStr "password_recovery"
  ∧ VStr "welcome" ≠ VStr "invitation"
  ∧ Forall (λ c, is_link_code c = false
                 ∧ (is_settings_context c = true →
                    c = GetSettingsTemplateContext (VStr "welcome") VNull))
      (calls_of (trace_of configured (buildEmail upstream (VStr "welcome") alice VUndefined))).
Proof.
  assert (H1 : VStr "welcome" ≠ VStr "password_recovery") by discriminate.
  assert (H2 : VStr "welcome" ≠ VStr "invitation") by discriminate.
  split; [exact H1|]. split; [exact H2|].
  exact (buildEmail_without_code upstream configured (VStr "welcome") alice VUndefined H1 H2).
Defined.

(** X15: In every render of a composition the context says who the email is for:
    its [email] is the email argument and its [user] is the user argument,
    or an empty object when there is none. The settings context cannot
    replace them. *)
Theorem buildEmail_context_recipient
    (K : constants) (w : world) (purpose email user : value) :
  Forall (λ r, get_prop r.1.2 "email" = Returned email
               ∧ get_prop r.1.2 "user" = Returned (js_or user (VObj ∅)))
    (renders (trace_of w (buildEmail K purpose email user))).
Proof.
  unfold trace_of, buildEmail, getLinkCode, read, mbind, prog_mbind.
  crunch; repeat constructor; simpl; by simplify_map_eq.
Qed.

(** X7: One call of [sendEmail] creates at most one transport and submits at
    most one message. *)
Theorem sendEmail_one_transport_one_message
    (K : constants) (w : world) (email purpose opts : value) :
  (length (created (trace_of w (sendEmail K email purpose opts))) ≤ 1)%nat
  ∧ (length (sent (trace_of w (sendEmail K email purpose opts))) ≤ 1)%nat.
Proof.
  destruct (sendEmail_begins K w email purpose opts)
    as [[e Hrun]|[[e Hrun]|[(db & q & e & Hw & Hrun)|(db & q & config & Hw & Hin)]]];
    try (unfold trace_of; rewrite Hrun; simpl; lia).
  destruct (truthy config) eqn:Htruthy.
  2:{ apply sendEmail_resolved in Hin as (u & _ & Hrun).
      unfold trace_of. rewrite Hrun, Htruthy. simpl. lia. }
  destruct (sendEmail_configured_run _ _ _ _ _ _ _ _ Hin Htruthy)
    as (options & u & _ & _ & Hrun).
  unfold trace_of at 1 2. rewrite Hrun. clear Hrun. simpl.
  destruct (w (CreateTransport (VObj options))) as [transport|]; simpl; [|lia].
  assert (Hc : created (trace_of w (buildEmail K purpose email u)) = []).
  { apply created_none.
    eapply Forall_impl; [apply uses_trace, buildEmail_uses|]. by intros [[]|[]|[]]. }
  pose proof (buildEmail_sends_nothing K w purpose email u) as Hs.
  destruct (result_of w (buildEmail K purpose email u)) as [html|e]; simpl.
  - rewrite created_app, sent_app, Hc, Hs.
    match goal with |- context [w ?c] => destruct (w c) end; simpl; lia.
  - rewrite Hc, Hs. simpl. lia.
Qed.
